(** * tachfile.py: splitting a device log into one file per device

    A shallow embedding of [src/tachfile.py].  The module has two public
    functions, [filter_data_by_device] (the partitioner) and
    [get_device_summary] (the summarizer); both read a table through pandas,
    and both wrap their whole body in [try: ... except Exception].

    The pandas primitives the source calls ([unique], boolean-mask selection,
    [groupby(...).agg], the readers and writers) are modelled at the level of
    Python object semantics: a cell is a scalar, a missing cell is NaN,
    [NaN == x] is false for every [x], and the hash table behind [unique]
    keeps a single NaN.  Numbers are integers; fractional values and the
    numeric reducers of [agg] are a parameter of the summarizer.  Text printed
    on standard output is not part of the model. *)

From Stdlib Require Import List String Ascii ZArith Bool Arith Lia.
From Stdlib Require Import Permutation DecimalString.
Import ListNotations.

Open Scope string_scope.
Open Scope list_scope.

(** ** Scalars and their two equalities *)

Inductive scalar : Type :=
| SNull                (* NaN / missing cell *)
| SBool (b : bool)
| SNum (z : Z)
| SStr (s : string).

Definition Z_of_bool (b : bool) : Z := if b then 1%Z else 0%Z.

(** Python [a == b] on cell values.  [True == 1], a string never equals a
    number, and NaN equals nothing, itself included. *)
Definition py_eq (a b : scalar) : bool :=
  match a, b with
  | SNull, _ | _, SNull => false
  | SStr s, SStr t => String.eqb s t
  | SStr _, _ | _, SStr _ => false
  | SBool x, SBool y => Z.eqb (Z_of_bool x) (Z_of_bool y)
  | SBool x, SNum n => Z.eqb (Z_of_bool x) n
  | SNum m, SBool y => Z.eqb m (Z_of_bool y)
  | SNum m, SNum n => Z.eqb m n
  end.

(** Key equality of the hash table used by [Series.unique] and of a Python
    [dict] keyed by the values that [unique] returned: as [py_eq], except
    that all NaN fall into one slot. *)
Definition key_eqb (a b : scalar) : bool :=
  match a, b with
  | SNull, SNull => true
  | _, _ => py_eq a b
  end.

Definition notnull (a : scalar) : bool :=
  match a with SNull => false | _ => true end.

(** [str(x)] *)
Definition str (a : scalar) : string :=
  match a with
  | SNull => "nan"
  | SBool true => "True"
  | SBool false => "False"
  | SNum z => NilZero.string_of_int (Z.to_int z)
  | SStr s => s
  end.

(** ** Strings *)

(** [s.replace(a, b)] for one-character [a] and [b]. *)
Fixpoint replace (a b : ascii) (s : string) : string :=
  match s with
  | EmptyString => EmptyString
  | String c r => String (if Ascii.eqb c a then b else c) (replace a b r)
  end.

Definition lower_ascii (c : ascii) : ascii :=
  let n := nat_of_ascii c in
  if ((65 <=? n) && (n <=? 90))%nat then ascii_of_nat (n + 32) else c.

(** [s.lower()], on the ASCII letters. *)
Fixpoint lower (s : string) : string :=
  match s with
  | EmptyString => EmptyString
  | String c r => String (lower_ascii c) (lower r)
  end.

Definition endswith (s suffix : string) : bool :=
  let n := String.length s in
  let m := String.length suffix in
  ((m <=? n)%nat && String.eqb (substring (n - m) m s) suffix)%bool.

Definition startswith (s pre : string) : bool := String.prefix pre s.

(** Membership of a character in a string. *)
Fixpoint occurs (c : ascii) (s : string) : bool :=
  match s with
  | EmptyString => false
  | String d r => (Ascii.eqb d c || occurs c r)%bool
  end.

(** [os.path.join(a, b)] on POSIX, two components. *)
Definition path_join (a b : string) : string :=
  if startswith b "/" then b
  else if (String.eqb a "" || endswith a "/")%bool then a ++ b
  else a ++ "/" ++ b.

(** ** Tables *)

Definition row : Type := list (string * scalar).

Record table : Type := mkTable {
  columns : list string;
  rows : list row
}.

Definition mem (c : string) (l : list string) : bool := existsb (String.eqb c) l.

Fixpoint lookup (c : string) (r : row) : option scalar :=
  match r with
  | [] => None
  | (k, v) :: r' => if String.eqb k c then Some v else lookup c r'
  end.

(** The cell of row [r] in column [c]; a record without the key reads NaN. *)
Definition cell (c : string) (r : row) : scalar :=
  match lookup c r with Some v => v | None => SNull end.

(** [df[c]] *)
Definition series (df : table) (c : string) : list scalar := map (cell c) (rows df).

(** [len(df)] *)
Definition len (df : table) : nat := List.length (rows df).

(** [Series.unique()]: distinct values in order of first appearance. *)
Fixpoint unique_from (seen xs : list scalar) : list scalar :=
  match xs with
  | [] => []
  | x :: r =>
      if existsb (key_eqb x) seen then unique_from seen r
      else x :: unique_from (x :: seen) r
  end.

Definition unique (xs : list scalar) : list scalar := unique_from [] xs.

(** [df[df[c] == v]] *)
Definition select (df : table) (c : string) (v : scalar) : table :=
  mkTable (columns df) (filter (fun r => py_eq (cell c r) v) (rows df)).

(** [d in specific_devices], the allow-list being a list of [str]. *)
Definition in_list (d : scalar) (l : list string) : bool :=
  existsb (fun s => py_eq d (SStr s)) l.

(** ** Exceptions, the file system, and the monad of the function bodies *)

Inductive value_error : Type :=
| BadInputSuffix                   (* line 37 and line 127 *)
| ColumnNotFound (c : string)      (* line 41 *)
| BadOutputFormat                  (* line 87 *)
| CannotInsert (c : string).       (* reset_index, name already a column *)

Inductive exn : Type :=
| ValueError (why : value_error)
| KeyError (c : string)
| TypeError
| ReadError                        (* a pandas reader failed *)
| OSError.                         (* a directory or file could not be made *)

Inductive out_format : Type := Csv | Json | Xlsx.

(** The environment of one call: what the pandas readers find on disk, and
    which directories and files the process is able to create. *)
Record pandas_io : Type := mkIO {
  read_csv : string -> exn + table;
  read_excel : string -> exn + table;
  read_json : string -> exn + table;
  can_mkdir : string -> bool;
  can_write : string -> bool
}.

(** What a call leaves on disk: the directories it made and the files it
    wrote.  [files] is read front to back, the latest write to a path first,
    so the entry found first is the content of the file. *)
Record filesys : Type := mkFS {
  dirs : list string;
  files : list (string * (out_format * table))
}.

Definition fs0 : filesys := mkFS [] [].

Fixpoint file_at (p : string) (l : list (string * (out_format * table)))
  : option (out_format * table) :=
  match l with
  | [] => None
  | (q, c) :: l' => if String.eqb q p then Some c else file_at p l'
  end.

Definition M (A : Type) : Type := filesys -> filesys * (exn + A).

Definition ret {A} (a : A) : M A := fun fs => (fs, inr a).
Definition raise {A} (e : exn) : M A := fun fs => (fs, inl e).
Definition bind {A B} (m : M A) (k : A -> M B) : M B :=
  fun fs =>
    match m fs with
    | (fs', inr a) => k a fs'
    | (fs', inl e) => (fs', inl e)
    end.
Definition lift {A} (r : exn + A) : M A := fun fs => (fs, r).

Notation "x <- m ;; k" := (bind m (fun x => k))
  (at level 61, m at next level, right associativity).
Notation "m ;;; k" := (bind m (fun _ => k))
  (at level 61, right associativity).

(** [os.makedirs(d, exist_ok=True)] *)
Definition makedirs (io : pandas_io) (d : string) : M unit :=
  fun fs =>
    if can_mkdir io d
    then (mkFS (if mem d (dirs fs) then dirs fs else d :: dirs fs) (files fs), inr tt)
    else (fs, inl OSError).

(** [to_csv] / [to_json] / [to_excel]: the file at [p] now holds [t]. *)
Definition write_file (io : pandas_io) (f : out_format) (t : table) (p : string) : M unit :=
  fun fs =>
    if can_write io p
    then (mkFS (dirs fs) ((p, (f, t)) :: files fs), inr tt)
    else (fs, inl OSError).

(** What the caller of a public function observes. *)
Inductive outcome (A : Type) : Type :=
| Returned (a : A)
| Escaped (e : exn).
Arguments Returned {A} a.
Arguments Escaped {A} e.

(** ** Loader (lines 30-37, duplicated at lines 120-127) *)

Definition load (io : pandas_io) (input_file : string) : exn + table :=
  if endswith input_file ".csv" then read_csv io input_file
  else if (endswith input_file ".xlsx" || endswith input_file ".xls")%bool
       then read_excel io input_file
  else if endswith input_file ".json" then read_json io input_file
  else inl (ValueError BadInputSuffix).

(** ** Partitioner *)

Record device_info : Type := mkInfo {
  records_count : nat;
  output_file : string
}.

Record stats : Type := mkStats {
  total_devices : nat;
  total_records : nat;
  devices_processed : list (scalar * device_info);
  output_files : list string
}.

(** The value returned: the empty dict [{}] or the stats dict. *)
Inductive result : Type :=
| EmptyDict
| StatsDict (s : stats).

(** [d[k] = v] on an insertion-ordered dict. *)
Fixpoint dict_set (k : scalar) (v : device_info) (d : list (scalar * device_info))
  : list (scalar * device_info) :=
  match d with
  | [] => [(k, v)]
  | (k', v') :: d' =>
      if key_eqb k' k then (k', v) :: d' else (k', v') :: dict_set k v d'
  end.

(** Line 72. *)
Definition safe_device_name (device_id : scalar) : string :=
  replace "\" "_" (replace "/" "_" (str device_id)).

Definition extension (f : out_format) : string :=
  match f with Csv => ".csv" | Json => ".json" | Xlsx => ".xlsx" end.

(** The name of the file inside [output_dir] (lines 75, 79, 83). *)
Definition device_file_name (device_id : scalar) (f : out_format) : string :=
  "device_" ++ safe_device_name device_id ++ extension f.

(** The dispatch on [file_format.lower()] of lines 74-87. *)
Definition format_of (file_format : string) : option out_format :=
  if String.eqb (lower file_format) "csv" then Some Csv
  else if String.eqb (lower file_format) "json" then Some Json
  else if String.eqb (lower file_format) "excel" then Some Xlsx
  else None.

(** One iteration of the loop of lines 67-96. *)
Definition process_device (io : pandas_io) (df : table)
    (output_dir device_column file_format : string)
    (st : stats) (device_id : scalar) : M stats :=
  let device_data := select df device_column device_id in
  out <- match format_of file_format with
         | Some f =>
             let out := path_join output_dir (device_file_name device_id f) in
             write_file io f device_data out ;;; ret out
         | None => raise (ValueError BadOutputFormat)
         end ;;
  ret (mkStats (total_devices st) (total_records st)
         (dict_set device_id (mkInfo (len device_data) out) (devices_processed st))
         (output_files st ++ [out])).

Fixpoint process_devices (io : pandas_io) (df : table)
    (output_dir device_column file_format : string)
    (devs : list scalar) (st : stats) : M stats :=
  match devs with
  | [] => ret st
  | d :: ds =>
      st' <- process_device io df output_dir device_column file_format st d ;;
      process_devices io df output_dir device_column file_format ds st'
  end.

(** [if specific_devices:] is true for a list with at least one element. *)
Definition truthy (specific_devices : option (list string)) : bool :=
  match specific_devices with
  | Some (_ :: _) => true
  | _ => false
  end.

Definition allow_list (specific_devices : option (list string)) : list string :=
  match specific_devices with Some l => l | None => [] end.

(** Lines 56-99: the stats record, the loop, the return. *)
Definition write_all (io : pandas_io) (df : table)
    (output_dir device_column file_format : string)
    (unique_devices : list scalar) : M result :=
  let st := mkStats (List.length unique_devices) (len df) [] [] in
  st' <- process_devices io df output_dir device_column file_format unique_devices st ;;
  ret (StatsDict st').

(** The body of the [try] block (lines 28-99). *)
Definition filter_body (io : pandas_io)
    (input_file output_dir device_column file_format : string)
    (specific_devices : option (list string)) : M result :=
  df <- lift (load io input_file) ;;
  if negb (mem device_column (columns df))
  then raise (ValueError (ColumnNotFound device_column))
  else
    makedirs io output_dir ;;;
    let unique_devices := unique (series df device_column) in
    if truthy specific_devices
    then
      let unique_devices :=
        filter (fun d => in_list d (allow_list specific_devices)) unique_devices in
      match unique_devices with
      | [] => ret EmptyDict
      | _ => write_all io df output_dir device_column file_format unique_devices
      end
    else write_all io df output_dir device_column file_format unique_devices.

(** [try: body except Exception: return {}].  Every exception of the model
    derives from [Exception], so none escapes; the files written before the
    exception stay. *)
Definition catch_all {A} (m : M A) (on_error : A) : filesys -> filesys * outcome A :=
  fun fs =>
    match m fs with
    | (fs', inr a) => (fs', Returned a)
    | (fs', inl _) => (fs', Returned on_error)
    end.

Definition filter_data_by_device (io : pandas_io)
    (input_file output_dir device_column file_format : string)
    (specific_devices : option (list string)) : filesys -> filesys * outcome result :=
  catch_all
    (filter_body io input_file output_dir device_column file_format specific_devices)
    EmptyDict.

(** ** Summarizer *)

(** The reducers that [agg] resolves by name, the rounding of [.round(2)] and
    the order in which [groupby] lists its keys belong to pandas and work on
    floating point; the summarizer takes them as a parameter. *)
Record reducers : Type := mkReducers {
  r_min : list scalar -> exn + scalar;
  r_max : list scalar -> exn + scalar;
  r_sum : list scalar -> exn + scalar;
  r_mean : list scalar -> exn + scalar;
  r_round2 : scalar -> scalar;
  r_sort : list scalar -> list scalar
}.

(** ['count']: the number of cells that are not NaN. *)
Definition r_count (xs : list scalar) : exn + scalar :=
  inr (SNum (Z.of_nat (List.length (filter notnull xs)))).

Fixpoint mapE {A B} (f : A -> exn + B) (l : list A) : exn + list B :=
  match l with
  | [] => inr []
  | a :: l' =>
      match f a with
      | inl e => inl e
      | inr b => match mapE f l' with
                 | inl e => inl e
                 | inr bs => inr (b :: bs)
                 end
      end
  end.

Definition summary_columns : list string :=
  ["Total_Records"; "First_Record"; "Last_Record"; "Online_Count"; "Total_Active_Time"].

Definition empty_table : table := mkTable [] [].

Section Summarizer.

Variable R : reducers.

(** The dict handed to [agg] at lines 130-135, one entry per column with
    the reducers applied to it.  Both conditionals test the columns of the
    whole frame, as the source does. *)
Definition agg_spec (df : table) : list (string * list (list scalar -> exn + scalar)) :=
  [ ("id", [r_count]);
    ("created_at", [r_min R; r_max R]);
    ("online", [fun x => if mem "online" (columns df) then r_sum R x
                         else inr (SStr "N/A")]);
    ("active_time", [if mem "active_time" (columns df) then r_sum R else r_mean R]) ].

(** The cells of one group: every reducer of every entry, on the group's
    column. *)
Definition agg_group (df : table) (device_column : string)
    (spec : list (string * list (list scalar -> exn + scalar))) (k : scalar)
  : exn + list scalar :=
  match mapE (fun cf : string * list (list scalar -> exn + scalar) =>
                mapE (fun f => f (series (select df device_column k) (fst cf))) (snd cf))
             spec with
  | inl e => inl e
  | inr cells => inr (map (r_round2 R) (List.concat cells))
  end.

(** [df.groupby(device_column).agg(spec).round(2)], then the renaming of
    the columns and [reset_index()] (lines 130-139).  [groupby] raises
    [KeyError] for an unknown key column, [agg] raises [KeyError] for an
    entry of the dict that is not a column of the frame, groups with a NaN
    key are dropped, and [reset_index] refuses a name already taken. *)
Definition summarize (df : table) (device_column : string) : exn + table :=
  if negb (mem device_column (columns df)) then inl (KeyError device_column)
  else
    let spec := agg_spec df in
    match find (fun c => negb (mem c (columns df))) (map fst spec) with
    | Some c => inl (KeyError c)
    | None =>
        let keys := r_sort R (filter notnull (unique (series df device_column))) in
        match mapE (agg_group df device_column spec) keys with
        | inl e => inl e
        | inr cells =>
            if mem device_column summary_columns
            then inl (ValueError (CannotInsert device_column))
            else
              let names := device_column :: summary_columns in
              inr (mkTable names
                     (map (fun kc => combine names (fst kc :: snd kc))
                          (combine keys cells)))
        end
    end.

(** The body of the [try] block (lines 119-141). *)
Definition summary_body (io : pandas_io) (input_file device_column : string)
  : exn + table :=
  match load io input_file with
  | inl e => inl e
  | inr df => summarize df device_column
  end.

(** Lines 118-145. *)
Definition get_device_summary (io : pandas_io) (input_file device_column : string)
  : outcome table :=
  match summary_body io input_file device_column with
  | inr t => Returned t
  | inl _ => Returned empty_table
  end.

End Summarizer.

(** ** Reducers on integer data

    An instance of [reducers] for columns of integers and booleans, used to
    run the summarizer on examples: NaN cells are skipped, a string cell
    makes a numeric reducer raise [TypeError], nothing is rounded, and keys
    are listed in increasing order (numbers before strings). *)

Definition num_of (a : scalar) : option Z :=
  match a with
  | SBool b => Some (Z_of_bool b)
  | SNum z => Some z
  | _ => None
  end.

Fixpoint numbers (xs : list scalar) : exn + list Z :=
  match xs with
  | [] => inr []
  | SNull :: r => numbers r
  | x :: r =>
      match num_of x, numbers r with
      | Some z, inr zs => inr (z :: zs)
      | _, _ => inl TypeError
      end
  end.

Definition reduce_numbers (f : list Z -> scalar) (xs : list scalar) : exn + scalar :=
  match numbers xs with
  | inl e => inl e
  | inr zs => inr (f zs)
  end.

Definition extremum (pick : Z -> Z -> Z) (zs : list Z) : scalar :=
  match zs with
  | [] => SNull
  | z :: r => SNum (fold_left pick r z)
  end.

Definition total (zs : list Z) : Z := fold_right Z.add 0%Z zs.

(** The mean of integers where it is an integer, NaN elsewhere: a fraction
    is outside the model. *)
Definition whole_mean (zs : list Z) : scalar :=
  let n := Z.of_nat (List.length zs) in
  if (n =? 0)%Z then SNull
  else if (total zs mod n =? 0)%Z then SNum (total zs / n)
  else SNull.

Definition scalar_leb (a b : scalar) : bool :=
  match a, b with
  | SStr s, SStr t => String.leb s t
  | SStr _, SNull => true
  | SStr _, _ => false
  | SNull, SNull => true
  | SNull, _ => false
  | _, SNull | _, SStr _ => true
  | _, _ => match num_of a, num_of b with
            | Some x, Some y => (x <=? y)%Z
            | _, _ => true
            end
  end.

Fixpoint insert_sorted (x : scalar) (l : list scalar) : list scalar :=
  match l with
  | [] => [x]
  | y :: l' => if scalar_leb x y then x :: l else y :: insert_sorted x l'
  end.

Definition sort_keys (l : list scalar) : list scalar := fold_right insert_sorted [] l.

Definition int_reducers : reducers :=
  mkReducers
    (reduce_numbers (extremum Z.min))
    (reduce_numbers (extremum Z.max))
    (reduce_numbers (fun zs => SNum (total zs)))
    (reduce_numbers whole_mean)
    (fun x => x)
    sort_keys.

(** ** Vocabulary of the statements *)

(** The class of a scalar under [key_eqb]: NaN, a number, or a string. *)
Definition norm (a : scalar) : option (Z + string) :=
  match a with
  | SNull => None
  | SBool b => Some (inl (Z_of_bool b))
  | SNum z => Some (inl z)
  | SStr s => Some (inr s)
  end.

(** The device keys the loop of line 67 runs over, after lines 47-51. *)
Definition processed_keys (df : table) (device_column : string)
    (specific_devices : option (list string)) : list scalar :=
  if truthy specific_devices
  then filter (fun d => in_list d (allow_list specific_devices))
              (unique (series df device_column))
  else unique (series df device_column).

(** The path, the disk entry and the stats entry that one iteration of the
    loop produces for device [d] when the format is [f]. *)
Definition out_path (output_dir : string) (f : out_format) (d : scalar) : string :=
  path_join output_dir (device_file_name d f).

Definition out_entry (df : table) (device_column output_dir : string) (f : out_format)
    (d : scalar) : string * (out_format * table) :=
  (out_path output_dir f d, (f, select df device_column d)).

Definition info_of (df : table) (device_column output_dir : string) (f : out_format)
    (d : scalar) : scalar * device_info :=
  (d, mkInfo (len (select df device_column d)) (out_path output_dir f d)).

(** Sum of [records_count] over the entries of [devices_processed]. *)
Definition sum_counts (s : stats) : nat :=
  list_sum (map (fun e => records_count (snd e)) (devices_processed s)).

(** The rows of the file at path [p], none when there is no such file. *)
Definition rows_at (fs : filesys) (p : string) : list row :=
  match file_at p (files fs) with
  | Some (_, t) => rows t
  | None => []
  end.

(** The rows of each output file, in the order of [output_files]. *)
Definition output_rows (fs : filesys) (s : stats) : list (list row) :=
  map (rows_at fs) (output_files s).

(** A row is selected by the allow-list as the specification words it: every
    row when no list is given, the rows whose device is in the list
    otherwise. *)
Definition in_allow_list (specific_devices : option (list string))
    (device_column : string) (r : row) : bool :=
  match specific_devices with
  | None => true
  | Some l => in_list (cell device_column r) l
  end.

(** A row is selected by the allow-list as line 50 applies it: a list
    without element selects like no list at all. *)
Definition is_selected (specific_devices : option (list string))
    (device_column : string) (r : row) : bool :=
  if truthy specific_devices
  then in_list (cell device_column r) (allow_list specific_devices)
  else true.

(** The device value of a row is a key of [devices_processed]. *)
Definition device_processed (s : stats) (device_column : string) (r : row) : bool :=
  existsb (key_eqb (cell device_column r)) (map fst (devices_processed s)).

(** Two strings that differ at most in the case of their ASCII letters. *)
Definition same_caseless (a b : string) : Prop := lower a = lower b.

(** ** Example inputs *)

Definition no_reader : string -> exn + table := fun _ => inl ReadError.

(** A disk on which every CSV path reads as [t] and everything can be
    written. *)
Definition csv_disk (t : table) : pandas_io :=
  mkIO (fun _ => inr t) no_reader no_reader (fun _ => true) (fun _ => true).

(** The table of the concrete scenario of the specification. *)
Definition aba_table : table :=
  mkTable ["id"; "device"]
    [ [("id", SNum 1); ("device", SStr "A")];
      [("id", SNum 2); ("device", SStr "B")];
      [("id", SNum 3); ("device", SStr "A")] ].

(** The same table read from a file that holds the header line only. *)
Definition empty_log : table := mkTable ["id"; "device"] [].

(** A log whose first record has no device. *)
Definition nan_log : table :=
  mkTable ["id"; "device"]
    [ [("id", SNum 1); ("device", SNull)];
      [("id", SNum 2); ("device", SStr "A")] ].

(** A log without the [online] column, and one without the [id] column. *)
Definition no_online_log : table :=
  mkTable ["id"; "device"; "created_at"; "active_time"]
    [ [("id", SNum 1); ("device", SStr "A"); ("created_at", SNum 10);
       ("active_time", SNum 5)] ].

Definition no_id_log : table :=
  mkTable ["device"; "created_at"; "online"; "active_time"]
    [ [("device", SStr "A"); ("created_at", SNum 10); ("online", SBool true);
       ("active_time", SNum 5)] ].

(** A complete log, with a boolean [online] column. *)
Definition full_log : table :=
  mkTable ["id"; "device"; "created_at"; "online"; "active_time"]
    [ [("id", SNum 1); ("device", SStr "B"); ("created_at", SNum 10);
       ("online", SBool true); ("active_time", SNum 5)];
      [("id", SNum 2); ("device", SStr "A"); ("created_at", SNum 11);
       ("online", SBool true); ("active_time", SNum 6)];
      [("id", SNum 3); ("device", SStr "B"); ("created_at", SNum 12);
       ("online", SBool false); ("active_time", SNum 7)] ].

(** The call of the [__main__] block, on the table of the scenario. *)
Definition aba_call : filesys * outcome result :=
  filter_data_by_device (csv_disk aba_table) "device_log.csv" "filtered_devices"
    "device" "csv" None fs0.

(** The stats record of an outcome, zeroes for the empty dict. *)
Definition stats_of (o : outcome result) : stats :=
  match o with
  | Returned (StatsDict s) => s
  | _ => mkStats 0 0 [] []
  end.

(** What line 72 does to one character. *)
Definition underscore_separator (c : ascii) : ascii :=
  if (Ascii.eqb c "/" || Ascii.eqb c "\")%bool then "_"%char else c.

(** The directories after [os.makedirs(d, exist_ok=True)] succeeded. *)
Definition with_dir (d : string) (fs : filesys) : filesys :=
  mkFS (if mem d (dirs fs) then dirs fs else d :: dirs fs) (files fs).

(** ** More vocabulary and example inputs *)

(** The pandas reader that reads back a file of the given output format. *)
Definition reader_of (f : out_format) (io : pandas_io) : string -> exn + table :=
  match f with
  | Csv => read_csv io
  | Json => read_json io
  | Xlsx => read_excel io
  end.

(** The separator [os.path.join] puts after its first component. *)
Definition join_separator (a : string) : string :=
  if (String.eqb a "" || endswith a "/")%bool then "" else "/".

(** The row is reached by the loop: its device [==] one of the keys that lines
    47-51 keep. *)
Definition is_counted (specific_devices : option (list string))
    (device_column : string) (r : row) : bool :=
  if truthy specific_devices
  then in_list (cell device_column r) (allow_list specific_devices)
  else notnull (cell device_column r).

(** [R] with another reducer for ['mean']. *)
Definition with_mean (R : reducers) (m : list scalar -> exn + scalar) : reducers :=
  mkReducers (r_min R) (r_max R) (r_sum R) m (r_round2 R) (r_sort R).

(** A disk like [csv_disk t] on which the one path [p] cannot be written. *)
Definition csv_disk_without (t : table) (p : string) : pandas_io :=
  mkIO (fun _ => inr t) no_reader no_reader (fun _ => true)
       (fun q => negb (String.eqb q p)).

(** A log with two device names that differ in a separator only. *)
Definition slash_log : table :=
  mkTable ["id"; "device"]
    [ [("id", SNum 1); ("device", SStr "a/b")];
      [("id", SNum 2); ("device", SStr "a_b")];
      [("id", SNum 3); ("device", SStr "a/b")] ].

(** A log whose device column was read as integers. *)
Definition numeric_log : table :=
  mkTable ["id"; "device"]
    [ [("id", SNum 1); ("device", SNum 7)];
      [("id", SNum 2); ("device", SNum 8)] ].


(** * Properties *)

(** ** The two equalities *)

Lemma Z_of_bool_inj x y : Z_of_bool x = Z_of_bool y -> x = y.
Proof. destruct x, y; simpl; intros H; congruence. Qed.

Lemma py_eq_norm a b :
  py_eq a b = true <-> norm a = norm b /\ norm a <> None.
Proof.
  destruct a, b; simpl;
    rewrite ?Z.eqb_eq, ?String.eqb_eq;
    (split; [intros H; try discriminate; subst; try rewrite H; split; congruence
            | intros [H N]; try congruence; inversion H; auto]).
Qed.

Lemma key_eqb_norm a b : key_eqb a b = true <-> norm a = norm b.
Proof.
  destruct a, b; simpl;
    rewrite ?Z.eqb_eq, ?String.eqb_eq;
    (split; [intros H; try discriminate; subst; try rewrite H; congruence
            | intros H; try congruence; inversion H; auto]).
Qed.

Lemma norm_none a : norm a = None <-> a = SNull.
Proof. destruct a; simpl; split; congruence. Qed.

Lemma notnull_norm a : notnull a = true <-> norm a <> None.
Proof. destruct a; simpl; split; congruence. Qed.

Lemma py_eq_null_l b : py_eq SNull b = false.
Proof. reflexivity. Qed.

Lemma py_eq_sym a b : py_eq a b = py_eq b a.
Proof.
  apply eq_true_iff_eq. rewrite !py_eq_norm.
  split; intros [H N]; split; congruence.
Qed.

Lemma py_eq_trans a b c : py_eq a b = true -> py_eq b c = true -> py_eq a c = true.
Proof.
  rewrite !py_eq_norm. intros [H1 N1] [H2 N2]. split; congruence.
Qed.

Lemma existsb_key_norm x l :
  existsb (key_eqb x) l = true <-> In (norm x) (map norm l).
Proof.
  rewrite existsb_exists, in_map_iff. split.
  - intros [y [Hy E]]. apply key_eqb_norm in E. eauto.
  - intros [y [E Hy]]. exists y. split; auto. apply key_eqb_norm. auto.
Qed.

Lemma existsb_py_norm x l :
  existsb (py_eq x) l = true <-> In (norm x) (map norm l) /\ norm x <> None.
Proof.
  rewrite existsb_exists, in_map_iff. split.
  - intros [y [Hy E]]. apply py_eq_norm in E. destruct E. eauto.
  - intros [[y [E Hy]] N]. exists y. split; auto. apply py_eq_norm. auto.
Qed.

Lemma in_list_norm d l :
  in_list d l = true <-> exists s, In s l /\ norm d = Some (inr s).
Proof.
  unfold in_list. rewrite existsb_exists. split.
  - intros [s [Hs E]]. apply py_eq_norm in E. simpl in E. destruct E. eauto.
  - intros [s [Hs E]]. exists s. split; auto.
    apply py_eq_norm. simpl. split; congruence.
Qed.

(** ** [unique] *)

Lemma unique_from_incl seen xs x :
  In x (unique_from seen xs) -> In x xs.
Proof.
  revert seen. induction xs as [|y r IH]; simpl; intros seen H; auto.
  destruct (existsb (key_eqb y) seen).
  - right. eauto.
  - destruct H as [H|H]; auto. right. eauto.
Qed.

Lemma unique_from_fresh seen xs x :
  In x (unique_from seen xs) -> ~ In (norm x) (map norm seen).
Proof.
  revert seen. induction xs as [|y r IH]; simpl; intros seen H; auto.
  destruct (existsb (key_eqb y) seen) eqn:E.
  - eauto.
  - destruct H as [H|H].
    + subst. rewrite <- existsb_key_norm. congruence.
    + apply IH in H. simpl in H. tauto.
Qed.

Lemma unique_from_nodup seen xs : NoDup (map norm (unique_from seen xs)).
Proof.
  revert seen. induction xs as [|y r IH]; simpl; intros seen.
  - constructor.
  - destruct (existsb (key_eqb y) seen); auto.
    simpl. constructor; auto.
    rewrite in_map_iff. intros [z [Ez Hz]].
    apply unique_from_fresh in Hz. simpl in Hz. apply Hz. left. congruence.
Qed.

Lemma unique_from_cover seen xs x :
  In x xs ->
  In (norm x) (map norm seen) \/ In (norm x) (map norm (unique_from seen xs)).
Proof.
  revert seen. induction xs as [|y r IH]; simpl; intros seen H; [tauto|].
  destruct (existsb (key_eqb y) seen) eqn:E.
  - destruct H as [H|H]; [subst; left; apply existsb_key_norm; auto | auto].
  - destruct H as [H|H].
    + subst. right. simpl. auto.
    + destruct (IH (y :: seen) H) as [H'|H']; simpl in *; tauto.
Qed.

Lemma unique_incl xs x : In x (unique xs) -> In x xs.
Proof. apply unique_from_incl. Qed.

Lemma unique_nodup xs : NoDup (map norm (unique xs)).
Proof. apply unique_from_nodup. Qed.

Lemma unique_cover xs x : In x xs -> In (norm x) (map norm (unique xs)).
Proof.
  intros H. destruct (unique_from_cover [] xs x H) as [H'|H']; auto.
  destruct H'.
Qed.

Lemma unique_nil xs : unique xs = [] -> xs = [].
Proof. destruct xs; simpl; auto. discriminate. Qed.

Lemma nodup_map_filter {A B} (f : A -> B) (p : A -> bool) l :
  NoDup (map f l) -> NoDup (map f (filter p l)).
Proof.
  induction l as [|a l IH]; simpl; intros H; auto.
  inversion H; subst. destruct (p a); simpl; auto.
  constructor; auto.
  rewrite in_map_iff in *. intros [z [Ez Hz]]. apply filter_In in Hz.
  apply H2. exists z. tauto.
Qed.

Lemma processed_keys_nodup df dc sd : NoDup (map norm (processed_keys df dc sd)).
Proof.
  unfold processed_keys. destruct (truthy sd).
  - apply nodup_map_filter, unique_nodup.
  - apply unique_nodup.
Qed.

(** ** Splitting the rows by key *)

Lemma filter_or_disjoint {A} (p q : A -> bool) (l : list A) :
  (forall x, In x l -> p x = true -> q x = true -> False) ->
  Permutation (filter p l ++ filter q l) (filter (fun x => p x || q x) l).
Proof.
  induction l as [|a l IH]; simpl; intros D; auto.
  assert (D' : forall x, In x l -> p x = true -> q x = true -> False) by eauto.
  specialize (IH D').
  destruct (p a) eqn:Ep, (q a) eqn:Eq; simpl.
  - exfalso. apply (D a); auto.
  - constructor. exact IH.
  - apply Permutation_sym, Permutation_cons_app, Permutation_sym. exact IH.
  - exact IH.
Qed.

(** The subsets selected by pairwise different keys are, together, the rows
    that match one of the keys. *)
Lemma split_by_key (c : string) (rs : list row) (ks : list scalar) :
  NoDup (map norm ks) ->
  Permutation
    (List.concat (map (fun k => filter (fun r => py_eq (cell c r) k) rs) ks))
    (filter (fun r => existsb (py_eq (cell c r)) ks) rs).
Proof.
  induction ks as [|k ks IH]; simpl; intros H.
  - induction rs; simpl; auto.
  - inversion H; subst.
    etransitivity.
    + apply Permutation_app_head. apply IH. assumption.
    + apply filter_or_disjoint.
      intros r _ E1 E2. apply py_eq_norm in E1. apply existsb_py_norm in E2.
      destruct E1 as [E1 _]. destruct E2 as [E2 _].
      rewrite E1 in E2. contradiction.
Qed.

Lemma split_by_key_disjoint (c : string) (r : row) (ks : list scalar) (i j : nat) :
  NoDup (map norm ks) ->
  py_eq (cell c r) (nth i ks SNull) = true ->
  py_eq (cell c r) (nth j ks SNull) = true ->
  i < List.length ks -> j < List.length ks ->
  i = j.
Proof.
  intros H Ei Ej Li Lj.
  apply py_eq_norm in Ei. apply py_eq_norm in Ej.
  destruct Ei as [Ei _]. destruct Ej as [Ej _].
  rewrite NoDup_nth with (d := norm SNull) in H.
  apply H; rewrite ?length_map; auto.
  rewrite !map_nth. congruence.
Qed.

(** ** The loop of lines 67-96 *)

Lemma dict_set_fresh k v d :
  ~ In (norm k) (map norm (map fst d)) -> dict_set k v d = d ++ [(k, v)].
Proof.
  induction d as [|[k' v'] d IH]; simpl; intros H; auto.
  destruct (key_eqb k' k) eqn:E.
  - apply key_eqb_norm in E. exfalso. apply H. left. exact E.
  - rewrite IH; auto.
Qed.

Section Loop.

Variable io : pandas_io.
Variable df : table.
Variables output_dir device_column file_format : string.

Lemma process_devices_nil st fs :
  process_devices io df output_dir device_column file_format [] st fs = (fs, inr st).
Proof. reflexivity. Qed.

(** With an unknown format the first iteration raises, before anything is
    written. *)
Lemma process_devices_bad_format d ds st fs :
  format_of file_format = None ->
  process_devices io df output_dir device_column file_format (d :: ds) st fs
  = (fs, inl (ValueError BadOutputFormat)).
Proof.
  intros E. simpl. unfold bind, process_device, bind, raise.
  rewrite E. reflexivity.
Qed.

Lemma process_devices_format d ds st fs fs' s :
  process_devices io df output_dir device_column file_format (d :: ds) st fs
  = (fs', inr s) ->
  exists f, format_of file_format = Some f.
Proof.
  destruct (format_of file_format) as [f|] eqn:E; eauto.
  rewrite process_devices_bad_format; auto. discriminate.
Qed.

Lemma process_devices_ok f devs : forall st fs fs' s,
  format_of file_format = Some f ->
  process_devices io df output_dir device_column file_format devs st fs
  = (fs', inr s) ->
  NoDup (map norm devs) ->
  (forall k, In k devs -> ~ In (norm k) (map norm (map fst (devices_processed st)))) ->
  s = mkStats (total_devices st) (total_records st)
        (devices_processed st ++ map (info_of df device_column output_dir f) devs)
        (output_files st ++ map (out_path output_dir f) devs)
  /\ fs' = mkFS (dirs fs)
             (rev (map (out_entry df device_column output_dir f) devs) ++ files fs)
  /\ forallb (fun d => can_write io (out_path output_dir f d)) devs = true.
Proof.
  induction devs as [|d ds IH]; intros st fs fs' s F H ND Fr.
  - simpl in H. unfold ret in H. inversion H; subst.
    destruct s, fs'; simpl. rewrite !app_nil_r. auto.
  - simpl in H. unfold bind at 1 in H.
    unfold process_device, bind, write_file, ret in H. rewrite F in H.
    fold (out_path output_dir f d) in H.
    destruct (can_write io (out_path output_dir f d)) eqn:W; [|discriminate].
    inversion ND as [|x l Nd ND']; subst.
    apply IH in H; auto.
    + simpl in H. destruct H as [Hs [Hfs Hw]].
      rewrite dict_set_fresh in Hs by (apply Fr; left; reflexivity).
      subst s fs'. simpl. rewrite W, Hw.
      rewrite <- !app_assoc. simpl. auto.
    + intros k Hk. simpl.
      rewrite dict_set_fresh by (apply Fr; left; reflexivity).
      rewrite !map_app, in_app_iff. simpl.
      intros [Hin|[Hin|[]]].
      * apply (Fr k); [right; auto | exact Hin].
      * apply Nd. rewrite Hin. apply in_map. exact Hk.
Qed.

End Loop.

(** ** What a successful call returns and leaves on disk *)

Lemma filter_success_inv io input_file output_dir device_column file_format
    specific_devices fs fs' s :
  filter_data_by_device io input_file output_dir device_column file_format
    specific_devices fs = (fs', Returned (StatsDict s)) ->
  exists df f,
    let devs := processed_keys df device_column specific_devices in
    load io input_file = inr df
    /\ mem device_column (columns df) = true
    /\ can_mkdir io output_dir = true
    /\ (devs <> [] -> format_of file_format = Some f)
    /\ (truthy specific_devices = true -> devs <> [])
    /\ s = mkStats (List.length devs) (len df)
             (map (info_of df device_column output_dir f) devs)
             (map (out_path output_dir f) devs)
    /\ files fs' = rev (map (out_entry df device_column output_dir f) devs) ++ files fs.
Proof.
  unfold filter_data_by_device, catch_all, filter_body, bind at 1, lift.
  destruct (load io input_file) as [e|df] eqn:L; [discriminate|].
  destruct (mem device_column (columns df)) eqn:C; simpl; [|discriminate].
  unfold bind at 1, makedirs.
  destruct (can_mkdir io output_dir) eqn:K; [|discriminate].
  set (fs1 := mkFS _ _).
  assert (Hrun : forall devs,
    match write_all io df output_dir device_column file_format devs fs1 with
    | (fs'0, inr a) => (fs'0, Returned a)
    | (fs'0, inl _) => (fs'0, Returned EmptyDict)
    end = (fs', Returned (StatsDict s)) ->
    NoDup (map norm devs) ->
    exists f, (devs <> [] -> format_of file_format = Some f)
      /\ s = mkStats (List.length devs) (len df)
               (map (info_of df device_column output_dir f) devs)
               (map (out_path output_dir f) devs)
      /\ files fs' = rev (map (out_entry df device_column output_dir f) devs) ++ files fs).
  { intros devs H ND. unfold write_all, bind, ret in H.
    destruct (process_devices io df output_dir device_column file_format devs
                (mkStats (List.length devs) (len df) [] []) fs1) as [fs2 [e|s2]] eqn:P;
      [discriminate|].
    inversion H; subst fs2 s2. clear H.
    destruct devs as [|d ds].
    - simpl in P. unfold ret in P. inversion P; subst.
      exists Csv. simpl. repeat split; auto. congruence.
    - destruct (process_devices_format _ _ _ _ _ _ _ _ _ _ _ P) as [f F].
      exists f. split; [auto|].
      eapply process_devices_ok in P; eauto.
      destruct P as [Hs [Hfs _]]. subst. simpl. auto. }
  intros H. exists df.
  unfold processed_keys.
  destruct (truthy specific_devices) eqn:T.
  - set (devs := filter _ _) in *.
    assert (ND : NoDup (map norm devs)) by apply nodup_map_filter, unique_nodup.
    destruct devs as [|d ds] eqn:D.
    + unfold ret in H. discriminate.
    + destruct (Hrun (d :: ds) H ND) as [f [F [Hs Hf]]].
      exists f. simpl. repeat split; auto. discriminate.
  - destruct (Hrun _ H (unique_nodup _)) as [f [F [Hs Hf]]].
    exists f. simpl. repeat split; auto. discriminate.
Qed.

(** ** Missing device column *)

Lemma mem_In c l : mem c l = true <-> In c l.
Proof.
  unfold mem. rewrite existsb_exists. split.
  - intros [x [Hx E]]. apply String.eqb_eq in E. subst. exact Hx.
  - intros H. exists c. split; auto. apply String.eqb_refl.
Qed.

Lemma mem_not_In c l : ~ In c l -> mem c l = false.
Proof.
  intros H. destruct (mem c l) eqn:E; auto. apply mem_In in E. contradiction.
Qed.

(** C3.  When the loaded table has no column named [device_column], the body
    raises the missing-column error before [os.makedirs] runs; the call
    returns the empty dict, the disk is as it was (no directory, no file),
    and nothing escapes to the caller. *)
Theorem missing_column_returns_empty
    io input_file output_dir device_column file_format specific_devices fs df :
  load io input_file = inr df ->
  ~ In device_column (columns df) ->
  filter_body io input_file output_dir device_column file_format specific_devices fs
    = (fs, inl (ValueError (ColumnNotFound device_column)))
  /\ filter_data_by_device io input_file output_dir device_column file_format
       specific_devices fs = (fs, Returned EmptyDict).
Proof.
  intros L C. apply mem_not_In in C.
  unfold filter_data_by_device, catch_all, filter_body, bind, lift, raise.
  rewrite L, C. simpl. split; reflexivity.
Qed.

Lemma missing_column_returns_empty_witness :
  load (csv_disk aba_table) "device_log.csv" = inr aba_table
  /\ ~ In "serial" (columns aba_table)
  /\ filter_body (csv_disk aba_table) "device_log.csv" "device_data" "serial" "csv"
       None fs0 = (fs0, inl (ValueError (ColumnNotFound "serial")))
  /\ filter_data_by_device (csv_disk aba_table) "device_log.csv" "device_data"
       "serial" "csv" None fs0 = (fs0, Returned EmptyDict).
Proof.
  assert (L : load (csv_disk aba_table) "device_log.csv" = inr aba_table)
    by reflexivity.
  assert (C : ~ In "serial" (columns aba_table))
    by (simpl; intros [H|[H|[]]]; discriminate).
  split; [exact L|]. split; [exact C|].
  exact (missing_column_returns_empty (csv_disk aba_table) "device_log.csv"
           "device_data" "serial" "csv" None fs0 aba_table L C).
Defined.

(** ** File names *)

Lemma occurs_app c a b : occurs c (a ++ b) = (occurs c a || occurs c b)%bool.
Proof.
  induction a as [|d a IH]; simpl; auto. rewrite IH. apply orb_assoc.
Qed.

Lemma occurs_replace_same a b s : a <> b -> occurs a (replace a b s) = false.
Proof.
  intros N. induction s as [|c s IH]; simpl; auto.
  rewrite IH, orb_false_r.
  destruct (Ascii.eqb c a) eqn:E.
  - apply Ascii.eqb_neq. congruence.
  - exact E.
Qed.

Lemma occurs_replace_other c a b s :
  b <> c -> occurs c s = false -> occurs c (replace a b s) = false.
Proof.
  intros N. induction s as [|d s IH]; simpl; auto.
  intros H. apply orb_false_iff in H. destruct H as [H1 H2].
  rewrite IH by exact H2. rewrite orb_false_r.
  destruct (Ascii.eqb d a); auto. apply Ascii.eqb_neq. exact N.
Qed.

Lemma get_replace a b s : forall i,
  String.get i (replace a b s)
  = option_map (fun c => if Ascii.eqb c a then b else c) (String.get i s).
Proof.
  induction s as [|c s IH]; simpl; intros i; auto.
  destruct i; simpl; auto.
Qed.

(** C6.  For every device key and every output format: the sanitized name
    is [str(key)] with each ['/'] and each ['\'] replaced by ['_'], character
    by character, and the file name [device_<name>.<ext>] that the loop joins
    to the output directory contains neither ['/'] nor ['\']. *)
Theorem file_name_has_no_separator (d : scalar) (f : out_format) :
  (forall i, String.get i (safe_device_name d)
             = option_map underscore_separator (String.get i (str d)))
  /\ occurs "/" (device_file_name d f) = false
  /\ occurs "\" (device_file_name d f) = false.
Proof.
  split; [|split].
  - intros i. unfold safe_device_name. rewrite !get_replace.
    destruct (String.get i (str d)) as [c|]; simpl; auto.
    unfold underscore_separator.
    destruct (Ascii.eqb c "/") eqn:E; simpl; auto.
  - unfold device_file_name, safe_device_name. rewrite !occurs_app.
    rewrite occurs_replace_other; [destruct f; reflexivity | discriminate |].
    apply occurs_replace_same. discriminate.
  - unfold device_file_name, safe_device_name. rewrite !occurs_app.
    rewrite occurs_replace_same by discriminate. destruct f; reflexivity.
Qed.

(** The path the loop writes for a device is that file name joined to the
    output directory. *)
Lemma process_device_path io df output_dir device_column file_format st d fs fs' st' :
  process_device io df output_dir device_column file_format st d fs = (fs', inr st') ->
  exists f,
    format_of file_format = Some f
    /\ output_files st' = output_files st ++ [path_join output_dir (device_file_name d f)]
    /\ files fs' = (path_join output_dir (device_file_name d f),
                    (f, select df device_column d)) :: files fs.
Proof.
  unfold process_device, bind, write_file, ret, raise.
  destruct (format_of file_format) as [f|]; [|discriminate].
  destruct (can_write io _); [|discriminate].
  intros H. inversion H; subst. exists f. simpl. auto.
Qed.

(** ** The output format *)

Lemma format_of_caseless file_format :
  (same_caseless file_format "csv" -> format_of file_format = Some Csv)
  /\ (same_caseless file_format "json" -> format_of file_format = Some Json)
  /\ (same_caseless file_format "excel" -> format_of file_format = Some Xlsx).
Proof.
  unfold same_caseless, format_of.
  repeat split; intros H; rewrite H; reflexivity.
Qed.

Lemma format_of_none file_format :
  format_of file_format = None <->
  ~ same_caseless file_format "csv" /\ ~ same_caseless file_format "json"
  /\ ~ same_caseless file_format "excel".
Proof.
  unfold same_caseless, format_of. simpl (lower "csv"). simpl (lower "json").
  simpl (lower "excel").
  destruct (String.eqb_spec (lower file_format) "csv") as [E1|N1];
  destruct (String.eqb_spec (lower file_format) "json") as [E2|N2];
  destruct (String.eqb_spec (lower file_format) "excel") as [E3|N3];
    split; intros H; try discriminate; try tauto; auto.
Qed.

Example format_of_mixed_case :
  format_of "CSV" = Some Csv /\ format_of "Json" = Some Json
  /\ format_of "eXcEl" = Some Xlsx /\ format_of "xlsx" = None.
Proof. repeat split. Qed.

Lemma call_of_body io input_file output_dir device_column file_format
    specific_devices fs fs' r :
  filter_body io input_file output_dir device_column file_format specific_devices fs
    = (fs', r) ->
  filter_data_by_device io input_file output_dir device_column file_format
    specific_devices fs
  = (fs', Returned match r with inr a => a | inl _ => EmptyDict end).
Proof.
  intros H. unfold filter_data_by_device, catch_all. rewrite H.
  destruct r; reflexivity.
Qed.

(** The body once the table is loaded, the column found and the directory
    made: lines 47-99 on the disk with the new directory. *)
Lemma filter_body_after_checks io input_file output_dir device_column file_format
    specific_devices fs df :
  load io input_file = inr df ->
  In device_column (columns df) ->
  can_mkdir io output_dir = true ->
  filter_body io input_file output_dir device_column file_format specific_devices fs
  = (if truthy specific_devices
     then match filter (fun d => in_list d (allow_list specific_devices))
                  (unique (series df device_column)) with
          | [] => ret EmptyDict
          | _ :: _ =>
              write_all io df output_dir device_column file_format
                (filter (fun d => in_list d (allow_list specific_devices))
                   (unique (series df device_column)))
          end
     else write_all io df output_dir device_column file_format
            (unique (series df device_column)))
      (with_dir output_dir fs).
Proof.
  intros L C K. apply mem_In in C.
  unfold filter_body, bind, lift, makedirs. rewrite L, C, K. reflexivity.
Qed.

(** With at least one device to write, an unknown format makes the first
    iteration raise; the call returns the empty dict and leaves the
    directory it made. *)
Lemma bad_format_with_devices io input_file output_dir device_column file_format
    specific_devices fs df :
  load io input_file = inr df ->
  In device_column (columns df) ->
  can_mkdir io output_dir = true ->
  format_of file_format = None ->
  processed_keys df device_column specific_devices <> [] ->
  filter_body io input_file output_dir device_column file_format specific_devices fs
    = (with_dir output_dir fs, inl (ValueError BadOutputFormat))
  /\ filter_data_by_device io input_file output_dir device_column file_format
       specific_devices fs = (with_dir output_dir fs, Returned EmptyDict).
Proof.
  intros L C K F NE.
  assert (B : filter_body io input_file output_dir device_column file_format
                specific_devices fs
              = (with_dir output_dir fs, inl (ValueError BadOutputFormat))).
  { rewrite (filter_body_after_checks _ _ _ _ _ _ _ _ L C K).
    unfold processed_keys in NE.
    destruct (truthy specific_devices).
    - destruct (filter _ _) as [|d ds]; [congruence|].
      unfold write_all, bind. rewrite process_devices_bad_format by exact F.
      reflexivity.
    - destruct (unique _) as [|d ds]; [congruence|].
      unfold write_all, bind. rewrite process_devices_bad_format by exact F.
      reflexivity. }
  split; [exact B|]. rewrite (call_of_body _ _ _ _ _ _ _ _ _ B). reflexivity.
Qed.

(** C10.  When the device column has no value at all and no allow-list is
    given, the loop body never runs, so [file_format] is never looked at:
    whatever its value, supported or not, the call makes the directory and
    returns a stats dict with [total_devices = 0], no processed device and
    no output file. *)
Theorem no_device_skips_format_check
    io input_file output_dir device_column file_format fs df :
  load io input_file = inr df ->
  In device_column (columns df) ->
  can_mkdir io output_dir = true ->
  unique (series df device_column) = [] ->
  filter_data_by_device io input_file output_dir device_column file_format None fs
    = (with_dir output_dir fs, Returned (StatsDict (mkStats 0 0 [] []))).
Proof.
  intros L C K U.
  assert (Z : len df = 0).
  { apply unique_nil in U. unfold series in U. apply map_eq_nil in U.
    unfold len. rewrite U. reflexivity. }
  rewrite (call_of_body _ _ _ _ _ _ _ (with_dir output_dir fs)
             (inr (StatsDict (mkStats 0 0 [] [])))); [reflexivity|].
  rewrite (filter_body_after_checks _ _ _ _ _ _ _ _ L C K).
  simpl. rewrite U. unfold write_all, bind. simpl. unfold ret. rewrite Z.
  reflexivity.
Qed.

Lemma no_device_skips_format_check_witness :
  format_of "parquet" = None
  /\ load (csv_disk empty_log) "device_log.csv" = inr empty_log
  /\ In "device" (columns empty_log)
  /\ can_mkdir (csv_disk empty_log) "filtered_devices" = true
  /\ unique (series empty_log "device") = []
  /\ filter_data_by_device (csv_disk empty_log) "device_log.csv" "filtered_devices"
       "device" "parquet" None fs0
     = (with_dir "filtered_devices" fs0, Returned (StatsDict (mkStats 0 0 [] []))).
Proof.
  assert (C : In "device" (columns empty_log)) by (simpl; auto).
  split; [reflexivity|]. split; [reflexivity|]. split; [exact C|].
  split; [reflexivity|]. split; [reflexivity|].
  exact (no_device_skips_format_check (csv_disk empty_log) "device_log.csv"
           "filtered_devices" "device" "parquet" fs0 empty_log
           eq_refl C eq_refl eq_refl).
Defined.

(** C5.  The call below names the format ["xml"], which is none of csv, json
    and excel, on a log that has the device column and no record.  No error
    is raised: the call returns a stats dict, not the empty dict. *)
Theorem unknown_format_on_empty_log :
  format_of "xml" = None
  /\ filter_body (csv_disk empty_log) "device_log.csv" "device_data" "device" "xml"
       None fs0
     = (mkFS ["device_data"] [], inr (StatsDict (mkStats 0 0 [] [])))
  /\ filter_data_by_device (csv_disk empty_log) "device_log.csv" "device_data"
       "device" "xml" None fs0
     = (mkFS ["device_data"] [], Returned (StatsDict (mkStats 0 0 [] []))).
Proof. repeat split. Qed.

(** ** The shape of a successful result *)

Lemma filter_success_shape io input_file output_dir device_column file_format
    specific_devices fs fs' s df :
  load io input_file = inr df ->
  filter_data_by_device io input_file output_dir device_column file_format
    specific_devices fs = (fs', Returned (StatsDict s)) ->
  exists f,
    (processed_keys df device_column specific_devices <> [] ->
     format_of file_format = Some f)
    /\ (truthy specific_devices = true ->
        processed_keys df device_column specific_devices <> [])
    /\ s = mkStats (List.length (processed_keys df device_column specific_devices))
             (len df)
             (map (info_of df device_column output_dir f)
                (processed_keys df device_column specific_devices))
             (map (out_path output_dir f)
                (processed_keys df device_column specific_devices))
    /\ files fs' = rev (map (out_entry df device_column output_dir f)
                          (processed_keys df device_column specific_devices))
                   ++ files fs.
Proof.
  intros L H. apply filter_success_inv in H.
  destruct H as [df' [f [L' [_ [_ [F [T [Hs Hf]]]]]]]].
  assert (df' = df) by congruence. subst df'.
  exists f. auto.
Qed.

Lemma keys_of_infos df dc od f devs :
  map fst (map (info_of df dc od f) devs) = devs.
Proof. rewrite map_map. simpl. apply map_id. Qed.

Lemma counts_of_infos df dc od f devs :
  list_sum (map (fun e => records_count (snd e)) (map (info_of df dc od f) devs))
  = List.length (List.concat
      (map (fun k => filter (fun r => py_eq (cell dc r) k) (rows df)) devs)).
Proof.
  rewrite length_concat, !map_map. reflexivity.
Qed.

(** Which rows match one of the keys the loop runs over. *)
Lemma matched_by_keys df dc sd r :
  In r (rows df) ->
  existsb (py_eq (cell dc r)) (processed_keys df dc sd)
  = if truthy sd then in_list (cell dc r) (allow_list sd) else notnull (cell dc r).
Proof.
  intros Hr.
  assert (Hc : In (cell dc r) (series df dc)) by (apply in_map; exact Hr).
  apply unique_cover in Hc. rewrite in_map_iff in Hc.
  destruct Hc as [k [Ek Hk]].
  unfold processed_keys. apply eq_true_iff_eq.
  destruct (truthy sd).
  - rewrite existsb_exists, in_list_norm. split.
    + intros [k' [Hk' E]]. apply filter_In in Hk'. destruct Hk' as [_ A].
      apply in_list_norm in A. destruct A as [t [Ht Et]].
      apply py_eq_norm in E. destruct E as [E _].
      exists t. split; congruence.
    + intros [t [Ht Et]]. exists k. split.
      * apply filter_In. split; auto. apply in_list_norm.
        exists t. split; congruence.
      * apply py_eq_norm. split; congruence.
  - rewrite existsb_py_norm, notnull_norm. split; [tauto|].
    intros N. split; auto. rewrite <- Ek. apply in_map. exact Hk.
Qed.

(** The sum of the counts is the number of rows that [==] one of the keys. *)
Lemma sum_counts_matched io input_file output_dir device_column file_format
    specific_devices fs fs' s df :
  load io input_file = inr df ->
  filter_data_by_device io input_file output_dir device_column file_format
    specific_devices fs = (fs', Returned (StatsDict s)) ->
  map fst (devices_processed s) = processed_keys df device_column specific_devices
  /\ sum_counts s
     = List.length
         (filter (fun r => if truthy specific_devices
                           then in_list (cell device_column r) (allow_list specific_devices)
                           else notnull (cell device_column r))
                 (rows df)).
Proof.
  intros L H. destruct (filter_success_shape _ _ _ _ _ _ _ _ _ _ L H)
    as [f [_ [_ [Hs _]]]].
  subst s. unfold sum_counts. simpl. split; [apply keys_of_infos|].
  rewrite counts_of_infos.
  rewrite (Permutation_length
             (split_by_key device_column (rows df) _
                (processed_keys_nodup df device_column specific_devices))).
  f_equal. apply filter_ext_in. intros r Hr. apply matched_by_keys. exact Hr.
Qed.

Lemma filter_length_lt {A} (p : A -> bool) (l : list A) x :
  In x l -> p x = false -> List.length (filter p l) < List.length l.
Proof.
  induction l as [|a l IH]; simpl; intros H E; [tauto|].
  destruct H as [H|H].
  - subst. rewrite E. pose proof (filter_length_le p l). lia.
  - specialize (IH H E). destruct (p a); simpl; lia.
Qed.

(** ** The allow-list *)

(** C4, as stated, at the empty list: the allow-list is given, no discovered
    key is in it, and yet both devices are processed and a stats dict is
    returned. *)
Lemma empty_allow_list_is_ignored :
  filter (fun d => in_list d []) (unique (series aba_table "device")) = []
  /\ snd (filter_data_by_device (csv_disk aba_table) "device_log.csv" "device_data"
            "device" "csv" (Some []) fs0)
     = Returned (StatsDict
         (mkStats 2 3
            [(SStr "A", mkInfo 2 "device_data/device_A.csv");
             (SStr "B", mkInfo 1 "device_data/device_B.csv")]
            ["device_data/device_A.csv"; "device_data/device_B.csv"]))
  /\ snd (filter_data_by_device (csv_disk aba_table) "device_log.csv" "device_data"
            "device" "csv" (Some []) fs0)
     <> Returned EmptyDict.
Proof.
  split; [reflexivity|]. split; [reflexivity|]. discriminate.
Qed.

(** C4, amended.  When [specific_devices] is a list with at least one
    element: if no discovered key is in the list, the body raises nothing
    and returns the empty dict, having made the directory and written no
    file; otherwise every successful call processes exactly the discovered
    keys that are in the list, in their order of discovery. *)
Theorem allow_list_restricts_processing
    io input_file output_dir device_column file_format l fs df :
  load io input_file = inr df ->
  In device_column (columns df) ->
  can_mkdir io output_dir = true ->
  l <> [] ->
  (filter (fun d => in_list d l) (unique (series df device_column)) = [] ->
   filter_body io input_file output_dir device_column file_format (Some l) fs
     = (with_dir output_dir fs, inr EmptyDict)
   /\ filter_data_by_device io input_file output_dir device_column file_format
        (Some l) fs = (with_dir output_dir fs, Returned EmptyDict))
  /\ (forall fs' s,
        filter_data_by_device io input_file output_dir device_column file_format
          (Some l) fs = (fs', Returned (StatsDict s)) ->
        let kept := filter (fun d => in_list d l) (unique (series df device_column)) in
        exists f,
          total_devices s = List.length kept
          /\ devices_processed s = map (info_of df device_column output_dir f) kept
          /\ output_files s = map (out_path output_dir f) kept
          /\ files fs' = rev (map (out_entry df device_column output_dir f) kept)
                         ++ files fs).
Proof.
  intros L C K NE.
  assert (T : truthy (Some l) = true) by (destruct l; [congruence | reflexivity]).
  split.
  - intros E.
    assert (B : filter_body io input_file output_dir device_column file_format
                  (Some l) fs = (with_dir output_dir fs, inr EmptyDict)).
    { rewrite (filter_body_after_checks _ _ _ _ _ _ _ _ L C K).
      rewrite T. unfold allow_list. rewrite E. reflexivity. }
    split; [exact B|]. rewrite (call_of_body _ _ _ _ _ _ _ _ _ B). reflexivity.
  - intros fs' s H.
    destruct (filter_success_shape _ _ _ _ _ _ _ _ _ _ L H) as [f [_ [_ [Hs Hf]]]].
    unfold processed_keys in Hs, Hf. rewrite T in Hs, Hf. unfold allow_list in Hs, Hf.
    subst s. simpl. exists f. auto.
Qed.

Lemma allow_list_restricts_processing_witness :
  load (csv_disk aba_table) "device_log.csv" = inr aba_table
  /\ In "device" (columns aba_table)
  /\ can_mkdir (csv_disk aba_table) "device_data" = true
  /\ ["Z"] <> []
  /\ filter (fun d => in_list d ["Z"]) (unique (series aba_table "device")) = []
  /\ filter_body (csv_disk aba_table) "device_log.csv" "device_data" "device" "csv"
       (Some ["Z"]) fs0 = (with_dir "device_data" fs0, inr EmptyDict)
  /\ filter_data_by_device (csv_disk aba_table) "device_log.csv" "device_data"
       "device" "csv" (Some ["Z"]) fs0
     = (with_dir "device_data" fs0, Returned EmptyDict)
  /\ ["B"; "Z"] <> []
  /\ filter (fun d => in_list d ["B"; "Z"]) (unique (series aba_table "device"))
     = [SStr "B"]
  /\ (exists f,
        total_devices
          (stats_of (snd (filter_data_by_device (csv_disk aba_table)
                            "device_log.csv" "device_data" "device" "csv"
                            (Some ["B"; "Z"]) fs0))) = 1
        /\ devices_processed
             (stats_of (snd (filter_data_by_device (csv_disk aba_table)
                               "device_log.csv" "device_data" "device" "csv"
                               (Some ["B"; "Z"]) fs0)))
           = map (info_of aba_table "device" "device_data" f) [SStr "B"]
        /\ output_files
             (stats_of (snd (filter_data_by_device (csv_disk aba_table)
                               "device_log.csv" "device_data" "device" "csv"
                               (Some ["B"; "Z"]) fs0)))
           = map (out_path "device_data" f) [SStr "B"]
        /\ files
             (fst (filter_data_by_device (csv_disk aba_table) "device_log.csv"
                     "device_data" "device" "csv" (Some ["B"; "Z"]) fs0))
           = rev (map (out_entry aba_table "device" "device_data" f) [SStr "B"])
             ++ files fs0).
Proof.
  assert (C : In "device" (columns aba_table)) by (simpl; auto).
  assert (N : ["Z"] <> @nil string) by discriminate.
  assert (N' : ["B"; "Z"] <> @nil string) by discriminate.
  split; [reflexivity|]. split; [exact C|]. split; [reflexivity|].
  split; [exact N|]. split; [reflexivity|].
  split; [|split; [|split; [exact N'|split; [reflexivity|]]]].
  - exact (proj1 (proj1 (allow_list_restricts_processing (csv_disk aba_table)
                    "device_log.csv" "device_data" "device" "csv" ["Z"] fs0
                    aba_table eq_refl C eq_refl N) eq_refl)).
  - exact (proj2 (proj1 (allow_list_restricts_processing (csv_disk aba_table)
                    "device_log.csv" "device_data" "device" "csv" ["Z"] fs0
                    aba_table eq_refl C eq_refl N) eq_refl)).
  - exact (proj2 (allow_list_restricts_processing (csv_disk aba_table)
             "device_log.csv" "device_data" "device" "csv" ["B"; "Z"] fs0
             aba_table eq_refl C eq_refl N')
             (fst (filter_data_by_device (csv_disk aba_table) "device_log.csv"
                     "device_data" "device" "csv" (Some ["B"; "Z"]) fs0))
             (stats_of (snd (filter_data_by_device (csv_disk aba_table)
                               "device_log.csv" "device_data" "device" "csv"
                               (Some ["B"; "Z"]) fs0)))
             eq_refl).
Defined.

(** C9.  On a successful call with a non-empty allow-list, [total_records]
    is the number of rows of the whole table; the counts of the processed
    devices sum to at most that, and to strictly less as soon as one row
    has a device value outside the list. *)
Theorem total_records_is_unfiltered
    io input_file output_dir device_column file_format l fs fs' s df :
  load io input_file = inr df ->
  l <> [] ->
  filter_data_by_device io input_file output_dir device_column file_format
    (Some l) fs = (fs', Returned (StatsDict s)) ->
  total_records s = len df
  /\ sum_counts s <= total_records s
  /\ ((exists r, In r (rows df) /\ in_list (cell device_column r) l = false) ->
      sum_counts s < total_records s).
Proof.
  intros L NE H.
  assert (T : truthy (Some l) = true) by (destruct l; [congruence | reflexivity]).
  destruct (filter_success_shape _ _ _ _ _ _ _ _ _ _ L H) as [f [_ [_ [Hs _]]]].
  destruct (sum_counts_matched _ _ _ _ _ _ _ _ _ _ L H) as [_ Hc].
  rewrite T in Hc. unfold allow_list in Hc.
  assert (R : total_records s = len df) by (subst s; reflexivity).
  rewrite R, Hc. unfold len. split; [reflexivity|]. split.
  - apply filter_length_le.
  - intros [r [Hr E]]. eapply filter_length_lt; eauto.
Qed.

Lemma total_records_is_unfiltered_witness :
  load (csv_disk aba_table) "device_log.csv" = inr aba_table
  /\ ["B"; "Z"] <> []
  /\ total_records
       (stats_of (snd (filter_data_by_device (csv_disk aba_table) "device_log.csv"
                         "device_data" "device" "csv" (Some ["B"; "Z"]) fs0))) = 3
  /\ sum_counts
       (stats_of (snd (filter_data_by_device (csv_disk aba_table) "device_log.csv"
                         "device_data" "device" "csv" (Some ["B"; "Z"]) fs0))) = 1
  /\ sum_counts
       (stats_of (snd (filter_data_by_device (csv_disk aba_table) "device_log.csv"
                         "device_data" "device" "csv" (Some ["B"; "Z"]) fs0)))
     < total_records
         (stats_of (snd (filter_data_by_device (csv_disk aba_table) "device_log.csv"
                           "device_data" "device" "csv" (Some ["B"; "Z"]) fs0))).
Proof.
  assert (N : ["B"; "Z"] <> @nil string) by discriminate.
  split; [reflexivity|]. split; [exact N|].
  split; [reflexivity|]. split; [reflexivity|].
  refine (proj2 (proj2 (total_records_is_unfiltered (csv_disk aba_table)
            "device_log.csv" "device_data" "device" "csv" ["B"; "Z"] fs0
            (fst (filter_data_by_device (csv_disk aba_table) "device_log.csv"
                    "device_data" "device" "csv" (Some ["B"; "Z"]) fs0))
            _ aba_table eq_refl N eq_refl)) _).
  exists [("id", SNum 1); ("device", SStr "A")].
  split; [left; reflexivity | reflexivity].
Defined.

(** ** Conservation of the row count *)

Lemma key_eqb_py_eq a b : a <> SNull -> key_eqb a b = py_eq a b.
Proof. destruct a; simpl; auto. congruence. Qed.

Lemma existsb_same {A} (p q : A -> bool) l :
  (forall x, p x = q x) -> existsb p l = existsb q l.
Proof.
  intros E. induction l as [|a l IH]; simpl; auto. rewrite E, IH. reflexivity.
Qed.

(** Where no row has a NaN device, the counts sum to the number of rows
    whose device value is a key of [devices_processed]. *)
Lemma counts_conserved_without_nan io input_file output_dir device_column
    file_format specific_devices fs fs' s df :
  load io input_file = inr df ->
  filter_data_by_device io input_file output_dir device_column file_format
    specific_devices fs = (fs', Returned (StatsDict s)) ->
  (forall r, In r (rows df) -> cell device_column r <> SNull) ->
  sum_counts s = List.length (filter (device_processed s device_column) (rows df)).
Proof.
  intros L H N.
  destruct (sum_counts_matched _ _ _ _ _ _ _ _ _ _ L H) as [Hk Hc].
  rewrite Hc. f_equal. apply filter_ext_in. intros r Hr.
  unfold device_processed. rewrite Hk.
  rewrite <- (matched_by_keys df device_column specific_devices r Hr).
  apply existsb_same. intros k. symmetry. apply key_eqb_py_eq, N, Hr.
Qed.

(** C2.  On [nan_log] the call succeeds with no allow-list.  NaN is among
    the keys processed, with a count of 0 and an empty file, although one
    row carries it: the counts sum to 1, while 2 rows, all the rows of the
    table, have a device value that was processed. *)
Theorem nan_rows_are_not_counted :
  filter_data_by_device (csv_disk nan_log) "device_log.csv" "device_data"
    "device" "csv" None fs0
  = (mkFS ["device_data"]
       [("device_data/device_A.csv",
         (Csv, mkTable ["id"; "device"] [[("id", SNum 2); ("device", SStr "A")]]));
        ("device_data/device_nan.csv", (Csv, mkTable ["id"; "device"] []))],
     Returned (StatsDict
       (mkStats 2 2
          [(SNull, mkInfo 0 "device_data/device_nan.csv");
           (SStr "A", mkInfo 1 "device_data/device_A.csv")]
          ["device_data/device_nan.csv"; "device_data/device_A.csv"])))
  /\ sum_counts
       (stats_of (snd (filter_data_by_device (csv_disk nan_log) "device_log.csv"
                         "device_data" "device" "csv" None fs0))) = 1
  /\ List.length
       (filter
          (device_processed
             (stats_of (snd (filter_data_by_device (csv_disk nan_log)
                               "device_log.csv" "device_data" "device" "csv"
                               None fs0)))
             "device")
          (rows nan_log)) = 2
  /\ len nan_log = 2.
Proof. repeat split. Qed.

(** ** The output files as a partition *)

Lemma file_at_app l : forall rest p c,
  NoDup (map fst l) -> In (p, c) l -> file_at p (l ++ rest) = Some c.
Proof.
  induction l as [|[q c'] l IH]; simpl; intros rest p c ND H; [tauto|].
  inversion ND as [|x m Nq ND']; subst.
  destruct H as [H|H].
  - inversion H; subst. rewrite String.eqb_refl. reflexivity.
  - destruct (String.eqb_spec q p) as [E|E].
    + subst. exfalso. apply Nq. change p with (fst (p, c)). apply in_map. exact H.
    + apply IH; assumption.
Qed.

(** When the paths are pairwise different, each output file holds the rows
    that [==] its key. *)
Lemma rows_of_outputs io input_file output_dir device_column file_format
    specific_devices fs fs' s df :
  load io input_file = inr df ->
  filter_data_by_device io input_file output_dir device_column file_format
    specific_devices fs = (fs', Returned (StatsDict s)) ->
  NoDup (output_files s) ->
  output_rows fs' s
  = map (fun k => filter (fun r => py_eq (cell device_column r) k) (rows df))
        (processed_keys df device_column specific_devices).
Proof.
  intros L H ND.
  destruct (filter_success_shape _ _ _ _ _ _ _ _ _ _ L H) as [f [_ [_ [Hs Hf]]]].
  subst s. unfold output_rows in *. simpl in *. rewrite map_map.
  apply map_ext_in. intros d Hd. unfold rows_at. rewrite Hf.
  rewrite (file_at_app _ _ _ (f, select df device_column d)).
  - reflexivity.
  - rewrite map_rev, map_map. simpl. apply NoDup_rev.
    exact ND.
  - rewrite <- in_rev. apply (in_map (out_entry df device_column output_dir f)).
    exact Hd.
Qed.

(** C1, as stated, fails on two inputs.  With the allow-list [[]] on the
    table of the scenario the call succeeds; no row has its device in that
    list, and the output files hold all three rows.  With no allow-list on
    [nan_log] the call succeeds, and the row whose device is NaN is in no
    output file. *)
Lemma claimed_partition_fails :
  (snd (filter_data_by_device (csv_disk aba_table) "device_log.csv" "device_data"
          "device" "csv" (Some []) fs0)
   = Returned (StatsDict
       (mkStats 2 3
          [(SStr "A", mkInfo 2 "device_data/device_A.csv");
           (SStr "B", mkInfo 1 "device_data/device_B.csv")]
          ["device_data/device_A.csv"; "device_data/device_B.csv"]))
   /\ filter (in_allow_list (Some []) "device") (rows aba_table) = []
   /\ ~ Permutation
          (List.concat
             (output_rows
                (fst (filter_data_by_device (csv_disk aba_table) "device_log.csv"
                        "device_data" "device" "csv" (Some []) fs0))
                (stats_of (snd (filter_data_by_device (csv_disk aba_table)
                                  "device_log.csv" "device_data" "device" "csv"
                                  (Some []) fs0)))))
          (filter (in_allow_list (Some []) "device") (rows aba_table)))
  /\ (snd (filter_data_by_device (csv_disk nan_log) "device_log.csv" "device_data"
             "device" "csv" None fs0)
      = Returned (StatsDict
          (mkStats 2 2
             [(SNull, mkInfo 0 "device_data/device_nan.csv");
              (SStr "A", mkInfo 1 "device_data/device_A.csv")]
             ["device_data/device_nan.csv"; "device_data/device_A.csv"]))
      /\ filter (in_allow_list None "device") (rows nan_log) = rows nan_log
      /\ ~ Permutation
             (List.concat
                (output_rows
                   (fst (filter_data_by_device (csv_disk nan_log) "device_log.csv"
                           "device_data" "device" "csv" None fs0))
                   (stats_of (snd (filter_data_by_device (csv_disk nan_log)
                                     "device_log.csv" "device_data" "device" "csv"
                                     None fs0)))))
             (filter (in_allow_list None "device") (rows nan_log))).
Proof.
  split; (split; [reflexivity|]; split; [reflexivity|]);
    intros P; apply Permutation_length in P; vm_compute in P; discriminate.
Qed.

(** C1, amended.  On a successful call whose output paths are pairwise
    different and, when no allow-list applies, whose table has no NaN in the
    device column: the rows of the output files, taken together, are the
    rows of the table whose device is in the allow-list, or all the rows
    when [specific_devices] is [None] or the empty list; and no row is in
    two output files. *)
Theorem outputs_partition_selected_rows
    io input_file output_dir device_column file_format specific_devices fs fs' s df :
  load io input_file = inr df ->
  filter_data_by_device io input_file output_dir device_column file_format
    specific_devices fs = (fs', Returned (StatsDict s)) ->
  NoDup (output_files s) ->
  (truthy specific_devices = false ->
   forall r, In r (rows df) -> cell device_column r <> SNull) ->
  Permutation (List.concat (output_rows fs' s))
    (filter (is_selected specific_devices device_column) (rows df))
  /\ (forall i j r,
        i < List.length (output_files s) ->
        j < List.length (output_files s) ->
        In r (nth i (output_rows fs' s) []) ->
        In r (nth j (output_rows fs' s) []) ->
        i = j).
Proof.
  intros L H ND N.
  pose proof (rows_of_outputs _ _ _ _ _ _ _ _ _ _ L H ND) as R.
  pose proof (processed_keys_nodup df device_column specific_devices) as K.
  assert (Len : List.length (output_files s)
                = List.length (processed_keys df device_column specific_devices)).
  { transitivity (List.length (output_rows fs' s)).
    - unfold output_rows. rewrite length_map. reflexivity.
    - rewrite R, length_map. reflexivity. }
  rewrite R. split.
  - rewrite (split_by_key device_column (rows df) _ K).
    rewrite (filter_ext_in _ (is_selected specific_devices device_column));
      [reflexivity|].
    intros r Hr. rewrite (matched_by_keys df device_column specific_devices r Hr).
    unfold is_selected. destruct (truthy specific_devices) eqn:T; auto.
    apply notnull_norm. rewrite norm_none. apply N; auto.
  - intros i j r Hi Hj Ri Rj. rewrite Len in Hi, Hj.
    set (g := fun k => filter (fun r0 => py_eq (cell device_column r0) k) (rows df)) in *.
    rewrite (nth_indep _ [] (g SNull)) in Ri by (rewrite length_map; exact Hi).
    rewrite (nth_indep _ [] (g SNull)) in Rj by (rewrite length_map; exact Hj).
    rewrite map_nth in Ri, Rj. unfold g in Ri, Rj.
    apply filter_In in Ri. apply filter_In in Rj.
    destruct Ri as [_ Ri]. destruct Rj as [_ Rj].
    exact (split_by_key_disjoint device_column r _ i j K Ri Rj Hi Hj).
Qed.

Lemma outputs_partition_selected_rows_witness :
  load (csv_disk aba_table) "device_log.csv" = inr aba_table
  /\ NoDup (output_files (stats_of (snd aba_call)))
  /\ (forall r, In r (rows aba_table) -> cell "device" r <> SNull)
  /\ Permutation
       (List.concat (output_rows (fst aba_call) (stats_of (snd aba_call))))
       (filter (is_selected None "device") (rows aba_table))
  /\ (forall i j r,
        i < List.length (output_files (stats_of (snd aba_call))) ->
        j < List.length (output_files (stats_of (snd aba_call))) ->
        In r (nth i (output_rows (fst aba_call) (stats_of (snd aba_call))) []) ->
        In r (nth j (output_rows (fst aba_call) (stats_of (snd aba_call))) []) ->
        i = j).
Proof.
  assert (ND : NoDup (output_files (stats_of (snd aba_call)))).
  { simpl. constructor; [|constructor; [|constructor]]; simpl.
    - intros [H|[]]. discriminate.
    - intros []. }
  assert (N : forall r, In r (rows aba_table) -> cell "device" r <> SNull).
  { simpl. intros r [H|[H|[H|[]]]]; subst r; discriminate. }
  split; [reflexivity|]. split; [exact ND|]. split; [exact N|].
  exact (outputs_partition_selected_rows (csv_disk aba_table) "device_log.csv"
           "filtered_devices" "device" "csv" None fs0 (fst aba_call)
           (stats_of (snd aba_call)) aba_table eq_refl eq_refl ND (fun _ => N)).
Defined.

(** The scenario of §8: two files, two rows for A and one for B. *)
Example aba_scenario :
  aba_call
  = (mkFS ["filtered_devices"]
       [("filtered_devices/device_B.csv",
         (Csv, mkTable ["id"; "device"] [[("id", SNum 2); ("device", SStr "B")]]));
        ("filtered_devices/device_A.csv",
         (Csv, mkTable ["id"; "device"]
                 [[("id", SNum 1); ("device", SStr "A")];
                  [("id", SNum 3); ("device", SStr "A")]]))],
     Returned (StatsDict
       (mkStats 2 3
          [(SStr "A", mkInfo 2 "filtered_devices/device_A.csv");
           (SStr "B", mkInfo 1 "filtered_devices/device_B.csv")]
          ["filtered_devices/device_A.csv"; "filtered_devices/device_B.csv"]))).
Proof. reflexivity. Qed.

(** Two keys that sanitize to one name share a path: the later file
    replaces the earlier one. *)
Example colliding_names :
  out_path "out" Csv (SStr "a/b") = out_path "out" Csv (SStr "a_b")
  /\ out_path "out" Csv (SNum 7) = out_path "out" Csv (SStr "7").
Proof. split; reflexivity. Qed.

(** ** Summarizer *)

(** Every column named in the dict of lines 130-135 has to be a column of
    the table: otherwise [agg] raises, and the call returns the empty
    table. *)
Lemma summary_needs_columns R io input_file device_column df c :
  load io input_file = inr df ->
  In c ["id"; "created_at"; "online"; "active_time"] ->
  ~ In c (columns df) ->
  (exists e, summary_body R io input_file device_column = inl e)
  /\ get_device_summary R io input_file device_column = Returned empty_table.
Proof.
  intros L Hc N.
  assert (B : exists e, summary_body R io input_file device_column = inl e).
  { unfold summary_body, summarize. rewrite L.
    destruct (negb (mem device_column (columns df))); [eauto|].
    destruct (find _ _) as [c'|] eqn:F; [eauto|].
    exfalso. apply (find_none _ _ F c) in Hc.
    apply negb_false_iff, mem_In in Hc. contradiction. }
  split; [exact B|]. destruct B as [e B].
  unfold get_device_summary. rewrite B. reflexivity.
Qed.

(** C8.  For every table without an [id] column the aggregation raises and
    [get_device_summary] returns the empty table. *)
Theorem summary_requires_id R io input_file device_column df :
  load io input_file = inr df ->
  ~ In "id" (columns df) ->
  (exists e, summary_body R io input_file device_column = inl e)
  /\ get_device_summary R io input_file device_column = Returned empty_table.
Proof.
  intros L N. apply (summary_needs_columns R io input_file device_column df "id");
    simpl; auto.
Qed.

Lemma summary_requires_id_witness :
  load (csv_disk no_id_log) "data.csv" = inr no_id_log
  /\ ~ In "id" (columns no_id_log)
  /\ (exists e, summary_body int_reducers (csv_disk no_id_log) "data.csv" "device"
                = inl e)
  /\ get_device_summary int_reducers (csv_disk no_id_log) "data.csv" "device"
     = Returned empty_table.
Proof.
  assert (N : ~ In "id" (columns no_id_log))
    by (simpl; intros [H|[H|[H|[H|[]]]]]; discriminate).
  split; [reflexivity|]. split; [exact N|].
  exact (summary_requires_id int_reducers (csv_disk no_id_log) "data.csv" "device"
           no_id_log eq_refl N).
Defined.

(** Without an [online] column the marker is never produced, whatever the
    reducers: the call returns the empty table. *)
Lemma summary_without_online R io input_file device_column df :
  load io input_file = inr df ->
  ~ In "online" (columns df) ->
  get_device_summary R io input_file device_column = Returned empty_table.
Proof.
  intros L N.
  apply (summary_needs_columns R io input_file device_column df "online");
    simpl; auto.
Qed.

(** The summary of [full_log]: with a boolean column the sum of [online] is
    the number of [True] in each group. *)
Example summary_of_full_log :
  get_device_summary int_reducers (csv_disk full_log) "data.csv" "device"
  = Returned
      (mkTable
         ["device"; "Total_Records"; "First_Record"; "Last_Record"; "Online_Count";
          "Total_Active_Time"]
         [ [("device", SStr "A"); ("Total_Records", SNum 1); ("First_Record", SNum 11);
            ("Last_Record", SNum 11); ("Online_Count", SNum 1);
            ("Total_Active_Time", SNum 6)];
           [("device", SStr "B"); ("Total_Records", SNum 2); ("First_Record", SNum 10);
            ("Last_Record", SNum 12); ("Online_Count", SNum 1);
            ("Total_Active_Time", SNum 12)] ]).
Proof. reflexivity. Qed.

(** C7.  [no_online_log] has every column of the aggregation except
    [online].  The call does not return a table whose [Online_Count] is
    ["N/A"]: [agg] raises [KeyError] for the missing column and the empty
    table is returned. *)
Theorem no_marker_without_online :
  ~ In "online" (columns no_online_log)
  /\ summary_body int_reducers (csv_disk no_online_log) "data.csv" "device"
     = inl (KeyError "online")
  /\ get_device_summary int_reducers (csv_disk no_online_log) "data.csv" "device"
     = Returned empty_table.
Proof.
  split; [|split; reflexivity].
  simpl. intros [H|[H|[H|[H|[]]]]]; discriminate.
Qed.

(** * Further properties of the two functions *)

(** ** The loader inside both functions *)

(** A file name with none of the four suffixes is refused before any reader
    runs: whatever is on disk, the partitioner returns the empty dict and
    touches nothing, and the summarizer returns the empty table. *)
Theorem unsupported_input_suffix (input_file : string) :
  endswith input_file ".csv" = false ->
  endswith input_file ".xlsx" = false ->
  endswith input_file ".xls" = false ->
  endswith input_file ".json" = false ->
  (forall io, load io input_file = inl (ValueError BadInputSuffix))
  /\ (forall io output_dir device_column file_format specific_devices fs,
        filter_data_by_device io input_file output_dir device_column file_format
          specific_devices fs = (fs, Returned EmptyDict))
  /\ (forall R io device_column,
        get_device_summary R io input_file device_column = Returned empty_table).
Proof.
  intros E1 E2 E3 E4.
  assert (L : forall io, load io input_file = inl (ValueError BadInputSuffix)).
  { intros io. unfold load. rewrite E1, E2, E3, E4. reflexivity. }
  split; [exact L|]. split.
  - intros. unfold filter_data_by_device, catch_all, filter_body, bind, lift.
    rewrite L. reflexivity.
  - intros. unfold get_device_summary, summary_body. rewrite L. reflexivity.
Qed.

Lemma unsupported_input_suffix_witness :
  endswith "DEVICE_LOG.CSV" ".csv" = false
  /\ load (csv_disk aba_table) "DEVICE_LOG.CSV" = inl (ValueError BadInputSuffix)
  /\ filter_data_by_device (csv_disk aba_table) "DEVICE_LOG.CSV" "device_data"
       "device" "csv" None fs0 = (fs0, Returned EmptyDict)
  /\ get_device_summary int_reducers (csv_disk full_log) "DEVICE_LOG.CSV" "device"
     = Returned empty_table.
Proof.
  pose proof (unsupported_input_suffix "DEVICE_LOG.CSV" eq_refl eq_refl eq_refl
                eq_refl) as [L [F S]].
  split; [reflexivity|]. split; [apply L|]. split; [apply F | apply S].
Defined.

(** An exception of the pandas reader is swallowed the same way. *)
Theorem reader_failure_is_swallowed io input_file e :
  load io input_file = inl e ->
  (forall output_dir device_column file_format specific_devices fs,
     filter_data_by_device io input_file output_dir device_column file_format
       specific_devices fs = (fs, Returned EmptyDict))
  /\ (forall R device_column,
        get_device_summary R io input_file device_column = Returned empty_table).
Proof.
  intros L. split.
  - intros. unfold filter_data_by_device, catch_all, filter_body, bind, lift.
    rewrite L. reflexivity.
  - intros. unfold get_device_summary, summary_body. rewrite L. reflexivity.
Qed.

Lemma reader_failure_is_swallowed_witness :
  load (csv_disk aba_table) "device_log.json" = inl ReadError
  /\ filter_data_by_device (csv_disk aba_table) "device_log.json" "device_data"
       "device" "csv" None fs0 = (fs0, Returned EmptyDict)
  /\ get_device_summary int_reducers (csv_disk aba_table) "device_log.json" "device"
     = Returned empty_table.
Proof.
  pose proof (reader_failure_is_swallowed (csv_disk aba_table) "device_log.json"
                ReadError eq_refl) as [F S].
  split; [reflexivity|]. split; [apply F | apply S].
Defined.

(** ** What a call does to the disk, whatever its outcome *)

Lemma fs_eta fs : mkFS (dirs fs) (files fs) = fs.
Proof. destruct fs; reflexivity. Qed.








(** ** A write that fails in the middle of the loop *)

Lemma process_devices_stops io df output_dir device_column file_format f pre d post :
  format_of file_format = Some f ->
  (forall k, In k pre -> can_write io (out_path output_dir f k) = true) ->
  can_write io (out_path output_dir f d) = false ->
  forall st fs,
    process_devices io df output_dir device_column file_format (pre ++ d :: post) st fs
    = (mkFS (dirs fs)
         (rev (map (out_entry df device_column output_dir f) pre) ++ files fs),
       inl OSError).
Proof.
  intros F Wpre Wd.
  induction pre as [|k pre IH]; intros st fs; simpl.
  - unfold bind at 1. unfold process_device, bind, write_file.
    rewrite F. fold (out_path output_dir f d). rewrite Wd, fs_eta. reflexivity.
  - unfold bind at 1. unfold process_device, bind, write_file, ret.
    rewrite F. fold (out_path output_dir f k).
    rewrite (Wpre k) by (left; reflexivity).
    rewrite IH by (intros k' Hk'; apply Wpre; right; exact Hk').
    simpl. rewrite <- app_assoc. reflexivity.
Qed.

(** When the file of one device cannot be written, the call returns the
    empty dict, and the files of the devices before it stay on disk: nothing
    is rolled back, and nothing is written for the devices after it. *)
Theorem write_failure_keeps_earlier_files
    io input_file output_dir device_column file_format specific_devices fs
    df f pre d post :
  load io input_file = inr df ->
  In device_column (columns df) ->
  can_mkdir io output_dir = true ->
  format_of file_format = Some f ->
  processed_keys df device_column specific_devices = pre ++ d :: post ->
  (forall k, In k pre -> can_write io (out_path output_dir f k) = true) ->
  can_write io (out_path output_dir f d) = false ->
  filter_data_by_device io input_file output_dir device_column file_format
    specific_devices fs
  = (mkFS (dirs (with_dir output_dir fs))
       (rev (map (out_entry df device_column output_dir f) pre) ++ files fs),
     Returned EmptyDict).
Proof.
  intros L C K F P Wpre Wd.
  rewrite (call_of_body _ _ _ _ _ _ _
             (mkFS (dirs (with_dir output_dir fs))
                (rev (map (out_entry df device_column output_dir f) pre) ++ files fs))
             (inl OSError)); [reflexivity|].
  rewrite (filter_body_after_checks _ _ _ _ _ _ _ _ L C K).
  unfold processed_keys in P.
  assert (W : write_all io df output_dir device_column file_format (pre ++ d :: post)
                (with_dir output_dir fs)
              = (mkFS (dirs (with_dir output_dir fs))
                   (rev (map (out_entry df device_column output_dir f) pre)
                    ++ files fs), inl OSError)).
  { unfold write_all, bind.
    rewrite (process_devices_stops io df output_dir device_column file_format f
               pre d post F Wpre Wd).
    reflexivity. }
  destruct (truthy specific_devices).
  - rewrite P. destruct (pre ++ d :: post) eqn:E.
    + destruct pre; discriminate.
    + exact W.
  - rewrite P. exact W.
Qed.

Lemma write_failure_keeps_earlier_files_witness :
  processed_keys aba_table "device" None = [SStr "A"] ++ SStr "B" :: []
  /\ can_write (csv_disk_without aba_table "device_data/device_B.csv")
       (out_path "device_data" Csv (SStr "B")) = false
  /\ filter_data_by_device (csv_disk_without aba_table "device_data/device_B.csv")
       "device_log.csv" "device_data" "device" "csv" None fs0
     = (mkFS ["device_data"]
          [("device_data/device_A.csv",
            (Csv, mkTable ["id"; "device"]
                    [[("id", SNum 1); ("device", SStr "A")];
                     [("id", SNum 3); ("device", SStr "A")]]))],
        Returned EmptyDict).
Proof.
  assert (C : In "device" (columns aba_table)) by (simpl; auto).
  assert (W : forall k, In k [SStr "A"] ->
                can_write (csv_disk_without aba_table "device_data/device_B.csv")
                  (out_path "device_data" Csv k) = true).
  { intros k [H|[]]. subst k. reflexivity. }
  split; [reflexivity|]. split; [reflexivity|].
  exact (write_failure_keeps_earlier_files
           (csv_disk_without aba_table "device_data/device_B.csv")
           "device_log.csv" "device_data" "device" "csv" None fs0 aba_table Csv
           [SStr "A"] (SStr "B") [] eq_refl C eq_refl eq_refl eq_refl W eq_refl).
Defined.

(** ** The stats record of a successful call *)

Lemma unique_from_length seen xs :
  List.length (unique_from seen xs) <= List.length xs.
Proof.
  revert seen. induction xs as [|x r IH]; simpl; intros seen; auto.
  destruct (existsb (key_eqb x) seen); simpl.
  - specialize (IH seen). lia.
  - specialize (IH (x :: seen)). lia.
Qed.

Lemma processed_keys_length df dc sd :
  List.length (processed_keys df dc sd) <= len df.
Proof.
  assert (U : List.length (unique (series df dc)) <= len df).
  { unfold len, unique. rewrite <- (length_map (cell dc) (rows df)).
    apply unique_from_length. }
  unfold processed_keys. destruct (truthy sd); auto.
  etransitivity; [apply filter_length_le | exact U].
Qed.

(** The fields of a returned stats record agree with one another: one entry
    and one path per device, the paths of [output_files] being those of the
    entries in the same order, keys pairwise different, never more devices
    than rows, and at least one device when an allow-list applies. *)
Theorem stats_are_consistent
    io input_file output_dir device_column file_format specific_devices fs fs' s :
  filter_data_by_device io input_file output_dir device_column file_format
    specific_devices fs = (fs', Returned (StatsDict s)) ->
  total_devices s = List.length (devices_processed s)
  /\ map (fun e => output_file (snd e)) (devices_processed s) = output_files s
  /\ NoDup (map norm (map fst (devices_processed s)))
  /\ total_devices s <= total_records s
  /\ (truthy specific_devices = true -> 0 < total_devices s).
Proof.
  intros H. apply filter_success_inv in H.
  destruct H as [df [f [_ [_ [_ [_ [T [Hs _]]]]]]]].
  subst s. simpl. rewrite keys_of_infos, !length_map, map_map. simpl.
  split; [reflexivity|]. split; [reflexivity|].
  split; [apply processed_keys_nodup|]. split; [apply processed_keys_length|].
  intros E. specialize (T E).
  destruct (processed_keys df device_column specific_devices);
    [congruence | simpl; lia].
Qed.

Lemma stats_are_consistent_witness :
  total_devices (stats_of (snd aba_call))
  = List.length (devices_processed (stats_of (snd aba_call)))
  /\ map (fun e => output_file (snd e)) (devices_processed (stats_of (snd aba_call)))
     = output_files (stats_of (snd aba_call))
  /\ NoDup (map norm (map fst (devices_processed (stats_of (snd aba_call)))))
  /\ total_devices (stats_of (snd aba_call)) <= total_records (stats_of (snd aba_call))
  /\ (truthy None = true -> 0 < total_devices (stats_of (snd aba_call))).
Proof.
  exact (stats_are_consistent (csv_disk aba_table) "device_log.csv"
           "filtered_devices" "device" "csv" None fs0 (fst aba_call)
           (stats_of (snd aba_call)) eq_refl).
Defined.

(** ** Which rows the counts leave out *)

Lemma filter_split_length {A} (p : A -> bool) (l : list A) :
  List.length (filter p l) + List.length (filter (fun x => negb (p x)) l)
  = List.length l.
Proof.
  induction l as [|a l IH]; simpl; auto.
  destruct (p a); simpl; lia.
Qed.

(** On a successful call every row is either counted for exactly one device
    or left out, and a row is left out exactly when its device is NaN or,
    under an allow-list, not in the list: the counts and the rows left out
    add up to [total_records]. *)
Theorem counts_and_uncounted_rows
    io input_file output_dir device_column file_format specific_devices fs fs' s df :
  load io input_file = inr df ->
  filter_data_by_device io input_file output_dir device_column file_format
    specific_devices fs = (fs', Returned (StatsDict s)) ->
  sum_counts s
  + List.length (filter (fun r => negb (is_counted specific_devices device_column r))
                   (rows df))
  = total_records s.
Proof.
  intros L H.
  destruct (filter_success_shape _ _ _ _ _ _ _ _ _ _ L H) as [f [_ [_ [Hs _]]]].
  destruct (sum_counts_matched _ _ _ _ _ _ _ _ _ _ L H) as [_ Hc].
  rewrite Hc. replace (total_records s) with (len df) by (subst s; reflexivity).
  apply (filter_split_length (is_counted specific_devices device_column)).
Qed.

Lemma counts_and_uncounted_rows_witness :
  load (csv_disk nan_log) "device_log.csv" = inr nan_log
  /\ sum_counts (stats_of (snd (filter_data_by_device (csv_disk nan_log)
                                  "device_log.csv" "device_data" "device" "csv"
                                  None fs0)))
     + List.length (filter (fun r => negb (is_counted None "device" r)) (rows nan_log))
     = total_records (stats_of (snd (filter_data_by_device (csv_disk nan_log)
                                       "device_log.csv" "device_data" "device" "csv"
                                       None fs0))).
Proof.
  split; [reflexivity|].
  exact (counts_and_uncounted_rows (csv_disk nan_log) "device_log.csv" "device_data"
           "device" "csv" None fs0
           (fst (filter_data_by_device (csv_disk nan_log) "device_log.csv"
                   "device_data" "device" "csv" None fs0))
           _ nan_log eq_refl eq_refl).
Defined.

Lemma py_eq_null_r a : py_eq a SNull = false.
Proof. destruct a; reflexivity. Qed.

Lemma py_eq_refl a : a <> SNull -> py_eq a a = true.
Proof.
  intros N. apply py_eq_norm. split; auto. rewrite norm_none. exact N.
Qed.

(** In a returned stats record an entry has [records_count = 0] exactly when
    its key is NaN: every other key comes from a row, which its own file then
    holds, so the only empty file a successful call writes is the one for
    NaN. *)
Theorem zero_count_only_for_nan
    io input_file output_dir device_column file_format specific_devices fs fs' s df
    d info :
  load io input_file = inr df ->
  filter_data_by_device io input_file output_dir device_column file_format
    specific_devices fs = (fs', Returned (StatsDict s)) ->
  In (d, info) (devices_processed s) ->
  (records_count info = 0 <-> d = SNull).
Proof.
  intros L H Hin.
  destruct (filter_success_shape _ _ _ _ _ _ _ _ _ _ L H) as [f [_ [_ [Hs _]]]].
  assert (Hk : In d (processed_keys df device_column specific_devices)
               /\ records_count info = List.length (rows (select df device_column d))).
  { subst s. simpl in Hin. apply in_map_iff in Hin.
    destruct Hin as [k [E Hk]]. unfold info_of in E. inversion E. subst k.
    split; [exact Hk | reflexivity]. }
  destruct Hk as [Hk Hc]. rewrite Hc. clear Hc Hin Hs H.
  assert (Hd : In d (series df device_column)).
  { apply unique_incl. unfold processed_keys in Hk.
    destruct (truthy specific_devices); auto.
    apply filter_In in Hk. tauto. }
  unfold series in Hd. apply in_map_iff in Hd. destruct Hd as [r [Er Hr]].
  unfold select. simpl. split.
  - intros Z. destruct (notnull d) eqn:N; [|destruct d; [reflexivity|discriminate..]].
    exfalso. apply length_zero_iff_nil in Z.
    assert (I : In r (filter (fun r0 => py_eq (cell device_column r0) d) (rows df))).
    { apply filter_In. split; auto. rewrite Er. apply py_eq_refl.
      intros E. rewrite E in N. discriminate. }
    rewrite Z in I. destruct I.
  - intros N. rewrite N.
    rewrite (filter_ext _ (fun _ => false)) by (intros; apply py_eq_null_r).
    clear. induction (rows df); simpl; auto.
Qed.

Lemma zero_count_only_for_nan_witness :
  In (SNull, mkInfo 0 "device_data/device_nan.csv")
     (devices_processed
        (stats_of (snd (filter_data_by_device (csv_disk nan_log) "device_log.csv"
                          "device_data" "device" "csv" None fs0))))
  /\ (records_count (mkInfo 0 "device_data/device_nan.csv") = 0 <-> SNull = SNull).
Proof.
  assert (I : In (SNull, mkInfo 0 "device_data/device_nan.csv")
                (devices_processed
                   (stats_of (snd (filter_data_by_device (csv_disk nan_log)
                                     "device_log.csv" "device_data" "device" "csv"
                                     None fs0)))))
    by (left; reflexivity).
  split; [exact I|].
  exact (zero_count_only_for_nan (csv_disk nan_log) "device_log.csv" "device_data"
           "device" "csv" None fs0
           (fst (filter_data_by_device (csv_disk nan_log) "device_log.csv"
                   "device_data" "device" "csv" None fs0))
           _ nan_log SNull (mkInfo 0 "device_data/device_nan.csv")
           eq_refl eq_refl I).
Defined.

(** ** The disk after a successful call *)

Lemma file_at_entries df dc od f ks rest p :
  file_at p (map (out_entry df dc od f) ks ++ rest)
  = match find (fun k => String.eqb (out_path od f k) p) ks with
    | Some d => Some (f, select df dc d)
    | None => file_at p rest
    end.
Proof.
  induction ks as [|k ks IH]; simpl; auto.
  destruct (String.eqb (out_path od f k) p); auto.
Qed.

(** After a successful call, a path holds the rows that [==] the last
    processed key whose file name leads to it, in the requested format and
    with the columns of the input; every other path is as it was. *)
Theorem last_writer_wins
    io input_file output_dir device_column file_format specific_devices fs fs' s df :
  load io input_file = inr df ->
  filter_data_by_device io input_file output_dir device_column file_format
    specific_devices fs = (fs', Returned (StatsDict s)) ->
  exists f,
    (s <> mkStats 0 (len df) [] [] -> format_of file_format = Some f)
    /\ output_files s = map (out_path output_dir f) (map fst (devices_processed s))
    /\ forall p,
         file_at p (files fs')
         = match find (fun k => String.eqb (out_path output_dir f k) p)
                   (rev (map fst (devices_processed s))) with
           | Some d => Some (f, mkTable (columns df)
                                  (filter (fun r => py_eq (cell device_column r) d)
                                     (rows df)))
           | None => file_at p (files fs)
           end.
Proof.
  intros L H.
  destruct (filter_success_shape _ _ _ _ _ _ _ _ _ _ L H) as [f [F [_ [Hs Hf]]]].
  exists f. split; [|split].
  - intros N. apply F. intros E. apply N. subst s. rewrite E. reflexivity.
  - subst s. simpl. rewrite keys_of_infos. reflexivity.
  - intros p. rewrite Hf. subst s. simpl. rewrite keys_of_infos.
    rewrite <- map_rev. apply file_at_entries.
Qed.

Lemma last_writer_wins_witness :
  load (csv_disk slash_log) "device_log.csv" = inr slash_log
  /\ exists f,
       (stats_of (snd (filter_data_by_device (csv_disk slash_log) "device_log.csv"
                         "out" "device" "csv" None fs0))
        <> mkStats 0 (len slash_log) [] [] -> format_of "csv" = Some f)
       /\ output_files
            (stats_of (snd (filter_data_by_device (csv_disk slash_log)
                              "device_log.csv" "out" "device" "csv" None fs0)))
          = map (out_path "out" f)
              (map fst (devices_processed
                 (stats_of (snd (filter_data_by_device (csv_disk slash_log)
                                   "device_log.csv" "out" "device" "csv" None fs0)))))
       /\ forall p,
            file_at p (files (fst (filter_data_by_device (csv_disk slash_log)
                                     "device_log.csv" "out" "device" "csv" None fs0)))
            = match find (fun k => String.eqb (out_path "out" f k) p)
                      (rev (map fst (devices_processed
                         (stats_of (snd (filter_data_by_device (csv_disk slash_log)
                                           "device_log.csv" "out" "device" "csv"
                                           None fs0)))))) with
              | Some d => Some (f, mkTable (columns slash_log)
                                     (filter (fun r => py_eq (cell "device" r) d)
                                        (rows slash_log)))
              | None => file_at p (files fs0)
              end.
Proof.
  split; [reflexivity|].
  exact (last_writer_wins (csv_disk slash_log) "device_log.csv" "out" "device" "csv"
           None fs0
           (fst (filter_data_by_device (csv_disk slash_log) "device_log.csv" "out"
                   "device" "csv" None fs0))
           _ slash_log eq_refl eq_refl).
Defined.

Lemma nodup_map_inj {A B} (g : A -> B) l x y :
  NoDup (map g l) -> In x l -> In y l -> g x = g y -> x = y.
Proof.
  induction l as [|a l IH]; simpl; intros ND Hx Hy E; [tauto|].
  inversion ND as [|b m Na ND']; subst.
  destruct Hx as [Hx|Hx], Hy as [Hy|Hy]; subst; auto.
  - exfalso. apply Na. rewrite E. apply in_map. exact Hy.
  - exfalso. apply Na. rewrite <- E. apply in_map. exact Hx.
Qed.

Lemma find_first_match {A} (g : A -> bool) l1 x l2 d :
  find g (l1 ++ x :: l2) = Some d -> g x = true -> In d (l1 ++ [x]).
Proof.
  induction l1 as [|a l1 IH]; simpl; intros H Gx.
  - rewrite Gx in H. inversion H. auto.
  - destruct (g a); [inversion H; auto | right; auto].
Qed.

(** When two processed keys sanitize to one path, the rows of the earlier
    one are in no output file after the call, although the call succeeds and
    counts them. *)
Theorem colliding_keys_lose_rows
    io input_file output_dir device_column file_format specific_devices fs fs' s df
    f a d1 b d2 c :
  load io input_file = inr df ->
  filter_data_by_device io input_file output_dir device_column file_format
    specific_devices fs = (fs', Returned (StatsDict s)) ->
  format_of file_format = Some f ->
  map fst (devices_processed s) = a ++ d1 :: b ++ d2 :: c ->
  out_path output_dir f d1 = out_path output_dir f d2 ->
  (forall p r, In p (output_files s) -> In r (rows_at fs' p) ->
               py_eq (cell device_column r) d1 = false)
  /\ (d1 <> SNull ->
      exists r, In r (rows df) /\ py_eq (cell device_column r) d1 = true).
Proof.
  intros L H F K P.
  destruct (sum_counts_matched _ _ _ _ _ _ _ _ _ _ L H) as [Hk _].
  destruct (filter_success_shape _ _ _ _ _ _ _ _ _ _ L H) as [f' [F' [_ [Hs Hf]]]].
  pose proof (processed_keys_nodup df device_column specific_devices) as ND.
  assert (K' : processed_keys df device_column specific_devices
               = a ++ d1 :: b ++ d2 :: c) by congruence.
  assert (Ef : f' = f).
  { assert (E : format_of file_format = Some f').
    { apply F'. rewrite K'. destruct a; discriminate. }
    congruence. }
  subst f'.
  assert (Ho : output_files s
               = map (out_path output_dir f) (a ++ d1 :: b ++ d2 :: c))
    by (rewrite <- K'; subst s; reflexivity).
  rewrite K' in Hf, ND. clear Hs Hk K.
  assert (In1 : In d1 (a ++ d1 :: b ++ d2 :: c))
    by (apply in_or_app; right; left; reflexivity).
  split.
  - intros p r Hp Hr. unfold rows_at in Hr. rewrite Hf in Hr.
    rewrite <- map_rev, file_at_entries in Hr.
    destruct (find _ _) as [d|] eqn:Fd.
    + simpl in Hr. apply filter_In in Hr. destruct Hr as [_ Hr].
      destruct (py_eq (cell device_column r) d1) eqn:E1; auto. exfalso.
      apply py_eq_norm in Hr. apply py_eq_norm in E1.
      assert (Nd : norm d = norm d1) by (destruct Hr, E1; congruence).
      pose proof (find_some _ _ Fd) as [Hd Gd]. apply in_rev in Hd.
      assert (d = d1) by (apply (nodup_map_inj norm _ d d1 ND Hd In1 Nd)).
      subst d. apply String.eqb_eq in Gd.
      replace (rev (a ++ d1 :: b ++ d2 :: c))
        with (rev c ++ d2 :: (rev b ++ d1 :: rev a)) in Fd.
      2:{ rewrite (rev_app_distr a). simpl. rewrite (rev_app_distr b). simpl.
          rewrite <- !app_assoc. simpl. reflexivity. }
      apply find_first_match in Fd.
      2:{ apply String.eqb_eq. congruence. }
      rewrite map_app in ND. simpl in ND. apply NoDup_remove_2 in ND.
      apply ND. apply in_or_app. right. rewrite map_app. apply in_or_app. right.
      simpl. apply in_app_iff in Fd. destruct Fd as [Fd|[Fd|[]]].
      * right. apply in_map. apply in_rev. exact Fd.
      * left. congruence.
    + exfalso. rewrite Ho in Hp. apply in_map_iff in Hp.
      destruct Hp as [k [Ek Hk']].
      pose proof (find_none _ _ Fd k (proj1 (in_rev _ _) Hk')) as G.
      simpl in G. rewrite Ek, String.eqb_refl in G. discriminate.
  - intros N.
    assert (Hd : In d1 (series df device_column)).
    { apply unique_incl. rewrite <- K' in In1.
      unfold processed_keys in In1.
      destruct (truthy specific_devices); auto.
      apply filter_In in In1. tauto. }
    unfold series in Hd. apply in_map_iff in Hd. destruct Hd as [r [Er Hr]].
    exists r. split; auto. rewrite Er. apply py_eq_refl. exact N.
Qed.

Lemma colliding_keys_lose_rows_witness :
  out_path "out" Csv (SStr "a/b") = out_path "out" Csv (SStr "a_b")
  /\ SStr "a/b" <> SNull
  /\ (forall p r,
        In p (output_files
                (stats_of (snd (filter_data_by_device (csv_disk slash_log)
                                  "device_log.csv" "out" "device" "csv" None fs0)))) ->
        In r (rows_at (fst (filter_data_by_device (csv_disk slash_log)
                              "device_log.csv" "out" "device" "csv" None fs0)) p) ->
        py_eq (cell "device" r) (SStr "a/b") = false)
  /\ (exists r, In r (rows slash_log) /\ py_eq (cell "device" r) (SStr "a/b") = true).
Proof.
  assert (N : SStr "a/b" <> SNull) by discriminate.
  pose proof (colliding_keys_lose_rows (csv_disk slash_log) "device_log.csv" "out"
                "device" "csv" None fs0
                (fst (filter_data_by_device (csv_disk slash_log) "device_log.csv"
                        "out" "device" "csv" None fs0))
                _ slash_log Csv [] (SStr "a/b") [] (SStr "a_b") []
                eq_refl eq_refl eq_refl eq_refl eq_refl) as [Lost Had].
  split; [reflexivity|]. split; [exact N|]. split; [exact Lost | exact (Had N)].
Defined.

(** ** The allow-list as a filter on the discovered keys *)

Lemma in_list_of_unique df dc l1 l2 :
  (forall r, In r (rows df) -> in_list (cell dc r) l1 = in_list (cell dc r) l2) ->
  filter (fun d => in_list d l1) (unique (series df dc))
  = filter (fun d => in_list d l2) (unique (series df dc)).
Proof.
  intros E. apply filter_ext_in. intros d Hd.
  apply unique_incl in Hd. unfold series in Hd. apply in_map_iff in Hd.
  destruct Hd as [r [Er Hr]]. rewrite <- Er. apply E. exact Hr.
Qed.

(** Two allow-lists with at least one element that admit the same rows of
    the table give the same returned value and the same disk: the order of
    the list, repeated names, and names that match no device play no part. *)
Theorem allow_list_is_a_filter
    io input_file output_dir device_column file_format l1 l2 fs df :
  load io input_file = inr df ->
  l1 <> [] -> l2 <> [] ->
  (forall r, In r (rows df) ->
     in_list (cell device_column r) l1 = in_list (cell device_column r) l2) ->
  filter_data_by_device io input_file output_dir device_column file_format
    (Some l1) fs
  = filter_data_by_device io input_file output_dir device_column file_format
      (Some l2) fs.
Proof.
  intros L N1 N2 E.
  assert (T1 : truthy (Some l1) = true) by (destruct l1; [congruence|reflexivity]).
  assert (T2 : truthy (Some l2) = true) by (destruct l2; [congruence|reflexivity]).
  unfold filter_data_by_device, catch_all. f_equal.
  unfold filter_body, bind, lift. rewrite L.
  destruct (negb (mem device_column (columns df))); [reflexivity|].
  destruct (makedirs io output_dir fs) as [fs1 [e|[]]]; [reflexivity|].
  rewrite T1, T2. unfold allow_list.
  rewrite (in_list_of_unique df device_column l1 l2 E). reflexivity.
Qed.

Lemma allow_list_is_a_filter_witness :
  load (csv_disk aba_table) "device_log.csv" = inr aba_table
  /\ ["Z"; "B"; "B"] <> [] /\ ["B"] <> []
  /\ filter_data_by_device (csv_disk aba_table) "device_log.csv" "device_data"
       "device" "csv" (Some ["Z"; "B"; "B"]) fs0
     = filter_data_by_device (csv_disk aba_table) "device_log.csv" "device_data"
         "device" "csv" (Some ["B"]) fs0.
Proof.
  assert (N1 : ["Z"; "B"; "B"] <> @nil string) by discriminate.
  assert (N2 : ["B"] <> @nil string) by discriminate.
  split; [reflexivity|]. split; [exact N1|]. split; [exact N2|].
  apply (allow_list_is_a_filter (csv_disk aba_table) "device_log.csv" "device_data"
           "device" "csv" ["Z"; "B"; "B"] ["B"] fs0 aba_table eq_refl N1 N2).
  simpl. intros r [H|[H|[H|[]]]]; subst r; reflexivity.
Defined.

Lemma filter_none {A} (p : A -> bool) l :
  (forall x, In x l -> p x = false) -> filter p l = [].
Proof.
  induction l as [|a l IH]; simpl; intros H; auto.
  rewrite (H a) by auto. apply IH. auto.
Qed.

(** The allow-list holds strings and line 51 compares with [==]: when no
    device cell of the table is a string (a column of integers, say), any
    allow-list with at least one element selects nothing, whatever the names
    in it, and the call returns the empty dict after making the directory. *)
Theorem allow_list_needs_string_devices
    io input_file output_dir device_column file_format l fs df :
  load io input_file = inr df ->
  In device_column (columns df) ->
  can_mkdir io output_dir = true ->
  l <> [] ->
  (forall r t, In r (rows df) -> cell device_column r <> SStr t) ->
  filter_data_by_device io input_file output_dir device_column file_format
    (Some l) fs
  = (with_dir output_dir fs, Returned EmptyDict).
Proof.
  intros L C K N NS.
  assert (T : truthy (Some l) = true) by (destruct l; [congruence|reflexivity]).
  rewrite (call_of_body _ _ _ _ _ _ _ (with_dir output_dir fs) (inr EmptyDict));
    [reflexivity|].
  rewrite (filter_body_after_checks _ _ _ _ _ _ _ _ L C K), T. unfold allow_list.
  rewrite filter_none; [reflexivity|].
  intros d Hd. apply unique_incl in Hd. unfold series in Hd.
  apply in_map_iff in Hd. destruct Hd as [r [Er Hr]].
  destruct (in_list d l) eqn:E; auto. exfalso.
  apply in_list_norm in E. destruct E as [t [_ Et]].
  apply (NS r t Hr). rewrite Er. destruct d; simpl in Et; congruence.
Qed.

Lemma allow_list_needs_string_devices_witness :
  load (csv_disk numeric_log) "device_log.csv" = inr numeric_log
  /\ In "device" (columns numeric_log)
  /\ ["7"] <> []
  /\ str (SNum 7) = "7"
  /\ filter_data_by_device (csv_disk numeric_log) "device_log.csv" "device_data"
       "device" "csv" (Some ["7"]) fs0
     = (with_dir "device_data" fs0, Returned EmptyDict).
Proof.
  assert (C : In "device" (columns numeric_log)) by (simpl; auto).
  assert (N : ["7"] <> @nil string) by discriminate.
  split; [reflexivity|]. split; [exact C|]. split; [exact N|].
  split; [reflexivity|].
  apply (allow_list_needs_string_devices (csv_disk numeric_log) "device_log.csv"
           "device_data" "device" "csv" ["7"] fs0 numeric_log eq_refl C eq_refl N).
  simpl. intros r t [H|[H|[]]]; subst r; discriminate.
Defined.

(** ** File names and paths *)

Lemma app_assoc_string (a b c : string) : ((a ++ b) ++ c = a ++ (b ++ c))%string.
Proof. induction a as [|x a IH]; simpl; [reflexivity | rewrite IH; reflexivity]. Qed.

Lemma length_app_string (a b : string) :
  String.length (a ++ b) = String.length a + String.length b.
Proof. induction a as [|x a IH]; simpl; auto. Qed.

Lemma length_replace a b s : String.length (replace a b s) = String.length s.
Proof. induction s as [|c s IH]; simpl; auto. Qed.

Lemma replace_absent a b s : occurs a s = false -> replace a b s = s.
Proof.
  induction s as [|c s IH]; simpl; intros H; auto.
  apply orb_false_iff in H. destruct H as [H1 H2].
  rewrite H1, IH by exact H2. reflexivity.
Qed.

(** The sanitized name is as long as [str(key)]; it is [str(key)] itself
    when that has no separator, so sanitizing a sanitized name changes
    nothing. *)
Theorem safe_name_keeps_clean_keys (d : scalar) :
  String.length (safe_device_name d) = String.length (str d)
  /\ (occurs "/" (str d) = false -> occurs "\" (str d) = false ->
      safe_device_name d = str d)
  /\ safe_device_name (SStr (safe_device_name d)) = safe_device_name d.
Proof.
  unfold safe_device_name. split; [|split].
  - rewrite !length_replace. reflexivity.
  - intros H1 H2. rewrite (replace_absent "/" "_" _ H1).
    apply replace_absent. exact H2.
  - simpl.
    rewrite (replace_absent "/" "_" (replace "\" "_" (replace "/" "_" (str d)))).
    + apply replace_absent. apply occurs_replace_same. discriminate.
    + apply occurs_replace_other; [discriminate|].
      apply occurs_replace_same. discriminate.
Qed.

Lemma safe_name_keeps_clean_keys_witness :
  occurs "/" (str (SStr "sensor-01")) = false
  /\ occurs "\" (str (SStr "sensor-01")) = false
  /\ safe_device_name (SStr "sensor-01") = "sensor-01".
Proof.
  split; [reflexivity|]. split; [reflexivity|].
  exact (proj1 (proj2 (safe_name_keeps_clean_keys (SStr "sensor-01")))
           eq_refl eq_refl).
Defined.

Lemma prefix_app (a b : string) : String.prefix a (a ++ b) = true.
Proof.
  induction a as [|c a IH]; simpl.
  - destruct b; reflexivity.
  - destruct (ascii_dec c c); [exact IH | congruence].
Qed.

(** Every path the loop writes is the output directory, the separator that
    [os.path.join] adds, and one component without ['/'] or ['\']: whatever
    the device key, the file is directly inside the output directory. *)
Theorem output_path_is_inside_output_dir (output_dir : string) (f : out_format)
    (d : scalar) :
  out_path output_dir f d
  = (output_dir ++ join_separator output_dir ++ device_file_name d f)%string
  /\ String.prefix output_dir (out_path output_dir f d) = true
  /\ occurs "/" (device_file_name d f) = false
  /\ occurs "\" (device_file_name d f) = false.
Proof.
  assert (E : out_path output_dir f d
              = (output_dir ++ join_separator output_dir
                 ++ device_file_name d f)%string).
  { unfold out_path, path_join, join_separator.
    replace (startswith (device_file_name d f) "/") with false by reflexivity.
    destruct (String.eqb output_dir "" || endswith output_dir "/")%bool;
      reflexivity. }
  split; [exact E|]. split; [rewrite E; apply prefix_app|].
  unfold device_file_name, safe_device_name. rewrite !occurs_app. split.
  - rewrite occurs_replace_other; [destruct f; reflexivity | discriminate |].
    apply occurs_replace_same. discriminate.
  - rewrite occurs_replace_same by discriminate. destruct f; reflexivity.
Qed.

Lemma substring_skip (a b : string) m : forall k,
  substring (String.length a + k) m (a ++ b) = substring k m b.
Proof. induction a as [|c a IH]; simpl; intros k; auto. Qed.

Lemma endswith_app (a b suffix : string) :
  String.length suffix <= String.length b ->
  endswith (a ++ b) suffix = endswith b suffix.
Proof.
  intros H. unfold endswith. rewrite length_app_string.
  replace (String.length a + String.length b - String.length suffix)
    with (String.length a + (String.length b - String.length suffix)) by lia.
  rewrite substring_skip.
  replace (String.length suffix <=? String.length a + String.length b)%nat
    with true by (symmetry; apply Nat.leb_le; lia).
  replace (String.length suffix <=? String.length b)%nat
    with true by (symmetry; apply Nat.leb_le; lia).
  reflexivity.
Qed.

Lemma out_path_ends_with_extension (output_dir : string) f d :
  exists body : string, out_path output_dir f d = (body ++ extension f)%string.
Proof.
  unfold out_path, path_join, device_file_name.
  replace (startswith ("device_" ++ safe_device_name d ++ extension f) "/")
    with false by reflexivity.
  destruct (String.eqb output_dir "" || endswith output_dir "/")%bool.
  - exists (output_dir ++ "device_" ++ safe_device_name d)%string.
    rewrite !app_assoc_string. reflexivity.
  - exists (output_dir ++ "/" ++ "device_" ++ safe_device_name d)%string.
    rewrite !app_assoc_string. reflexivity.
Qed.

(** Every file the partitioner writes has a name the loader accepts, and the
    loader reads it back with the reader of the format it was written in:
    [.csv] with [read_csv], [.json] with [read_json], [.xlsx] with
    [read_excel]. *)
Theorem output_files_are_loadable (io : pandas_io) (output_dir : string)
    (f : out_format) (d : scalar) :
  load io (out_path output_dir f d) = reader_of f io (out_path output_dir f d).
Proof.
  destruct (out_path_ends_with_extension output_dir f d) as [body E].
  unfold load. rewrite E.
  destruct f; simpl extension; simpl reader_of;
    rewrite !endswith_app by (simpl; lia); reflexivity.
Qed.

(** ** The summarizer *)

(** The grouping column and the four columns named in the dict of lines
    130-135 are all required: a table that lacks any one of them gives the
    empty table, whatever the reducers. *)
Theorem summary_requires_every_column R io input_file device_column df c :
  load io input_file = inr df ->
  In c [device_column; "id"; "created_at"; "online"; "active_time"] ->
  ~ In c (columns df) ->
  get_device_summary R io input_file device_column = Returned empty_table.
Proof.
  intros L Hc N. destruct Hc as [Hc|Hc].
  - subst c. apply mem_not_In in N.
    unfold get_device_summary, summary_body, summarize. rewrite L, N. reflexivity.
  - apply (summary_needs_columns R io input_file device_column df c L Hc N).
Qed.

Lemma summary_requires_every_column_witness :
  load (csv_disk aba_table) "data.csv" = inr aba_table
  /\ ~ In "created_at" (columns aba_table)
  /\ get_device_summary int_reducers (csv_disk aba_table) "data.csv" "device"
     = Returned empty_table.
Proof.
  assert (N : ~ In "created_at" (columns aba_table))
    by (simpl; intros [H|[H|[]]]; discriminate).
  split; [reflexivity|]. split; [exact N|].
  apply (summary_requires_every_column int_reducers (csv_disk aba_table) "data.csv"
           "device" aba_table "created_at" eq_refl); [|exact N].
  simpl. auto.
Defined.

(** The ['mean'] of line 134 is never computed: the branch is taken only
    when [active_time] is missing, and then [agg] raises.  Replacing the
    reducer for ['mean'] by any other changes no result. *)
Theorem mean_is_never_used R m io input_file device_column :
  get_device_summary (with_mean R m) io input_file device_column
  = get_device_summary R io input_file device_column.
Proof.
  unfold get_device_summary, summary_body.
  destruct (load io input_file) as [e|df]; [reflexivity|].
  replace (summarize (with_mean R m) df device_column)
    with (summarize R df device_column); [reflexivity|].
  unfold summarize.
  destruct (negb (mem device_column (columns df))); [reflexivity|].
  change (map fst (agg_spec (with_mean R m) df))
    with (map fst (agg_spec R df)).
  destruct (find _ (map fst (agg_spec R df))) as [c|] eqn:F; [reflexivity|].
  assert (A : mem "active_time" (columns df) = true).
  { apply negb_false_iff. apply (find_none _ _ F). simpl. auto. }
  assert (S : agg_spec (with_mean R m) df = agg_spec R df).
  { unfold agg_spec. simpl. rewrite A. reflexivity. }
  unfold agg_group. rewrite S. reflexivity.
Qed.







(** ** The output format, once more *)

Lemma process_devices_format_ext io df output_dir device_column ff1 ff2 devs :
  format_of ff1 = format_of ff2 ->
  forall st fs,
    process_devices io df output_dir device_column ff1 devs st fs
    = process_devices io df output_dir device_column ff2 devs st fs.
Proof.
  intros E.
  assert (PD : forall st d,
            process_device io df output_dir device_column ff1 st d
            = process_device io df output_dir device_column ff2 st d)
    by (intros; unfold process_device; rewrite E; reflexivity).
  induction devs as [|d ds IH]; intros st fs; simpl; auto.
  rewrite PD. unfold bind.
  destruct (process_device io df output_dir device_column ff2 st d fs)
    as [fs1 [e|st1]]; auto.
Qed.

(** Two spellings of [file_format] that differ only in the case of their
    letters give the same returned value and the same disk, on every
    input. *)
Theorem file_format_is_caseless
    io input_file output_dir device_column ff1 ff2 specific_devices fs :
  same_caseless ff1 ff2 ->
  filter_data_by_device io input_file output_dir device_column ff1
    specific_devices fs
  = filter_data_by_device io input_file output_dir device_column ff2
      specific_devices fs.
Proof.
  intros E.
  assert (F : format_of ff1 = format_of ff2)
    by (unfold format_of; rewrite E; reflexivity).
  assert (W : forall df devs fs1,
            write_all io df output_dir device_column ff1 devs fs1
            = write_all io df output_dir device_column ff2 devs fs1).
  { intros. unfold write_all, bind.
    rewrite (process_devices_format_ext io df output_dir device_column ff1 ff2 _ F).
    reflexivity. }
  unfold filter_data_by_device, catch_all. f_equal.
  unfold filter_body, bind, lift.
  destruct (load io input_file) as [e|df]; [reflexivity|].
  destruct (negb (mem device_column (columns df))); [reflexivity|].
  destruct (makedirs io output_dir fs) as [fs1 [e|[]]]; [reflexivity|].
  destruct (truthy specific_devices).
  - destruct (filter _ _) as [|d ds]; [reflexivity | rewrite W; reflexivity].
  - rewrite W. reflexivity.
Qed.

Lemma file_format_is_caseless_witness :
  same_caseless "Excel" "EXCEL"
  /\ filter_data_by_device (csv_disk aba_table) "device_log.csv" "device_data"
       "device" "Excel" None fs0
     = filter_data_by_device (csv_disk aba_table) "device_log.csv" "device_data"
         "device" "EXCEL" None fs0.
Proof.
  split; [reflexivity|].
  exact (file_format_is_caseless (csv_disk aba_table) "device_log.csv"
           "device_data" "device" "Excel" "EXCEL" None fs0 eq_refl).
Defined.

Lemma bad_format_with_devices_witness :
  load (csv_disk aba_table) "device_log.csv" = inr aba_table
  /\ In "device" (columns aba_table)
  /\ format_of "parquet" = None
  /\ processed_keys aba_table "device" None <> []
  /\ filter_body (csv_disk aba_table) "device_log.csv" "device_data" "device"
       "parquet" None fs0
     = (with_dir "device_data" fs0, inl (ValueError BadOutputFormat))
  /\ filter_data_by_device (csv_disk aba_table) "device_log.csv" "device_data"
       "device" "parquet" None fs0
     = (with_dir "device_data" fs0, Returned EmptyDict).
Proof.
  assert (C : In "device" (columns aba_table)) by (simpl; auto).
  assert (N : processed_keys aba_table "device" None <> []) by discriminate.
  split; [reflexivity|]. split; [exact C|]. split; [reflexivity|].
  split; [exact N|].
  exact (bad_format_with_devices (csv_disk aba_table) "device_log.csv"
           "device_data" "device" "parquet" None fs0 aba_table
           eq_refl C eq_refl eq_refl N).
Defined.
